(** * The check-in bot: scheduler, user store and conversation router

    A shallow embedding of [src/bot.py] (class [ArjunBot]) and of the memory
    routine of [src/llm_handler.py] (class [LLMHandler]).

    Python data is kept as the code has it: the user store is a [dict] from
    string keys to JSON values, a record is a [dict], its ["config"] entry is
    a [dict].  Python dictionaries iterate in insertion order, so a dictionary
    is an association list here.  Exceptions are values of type [exn]; the
    handlers run in a state monad that keeps the state reached when an
    exception is raised.

    Each handler runs to its end before the next one starts (no other task
    is interleaved at an [await]).  The clock, the random generator, the
    messaging client, the language model and the time-tracking service are
    given from outside; the prompt sent to the language model is not
    modelled, only the text that comes back. *)

From Stdlib Require Import ZArith QArith String Ascii List Lia Bool.
From stdpp Require Import base tactics option list strings pretty gmap.

Local Open Scope string_scope.
Local Open Scope list_scope.
Local Open Scope Z_scope.
Local Set Warnings "-register-all".

(** ** Python values *)

(** The exceptions the modelled code can meet.  [NotFound] is
    [discord.NotFound]; [Forbidden] and [HTTPException] are the other
    failures of the messaging client. *)
Inductive exn : Type :=
| KeyError | TypeError | ValueError | AttributeError | IndexError
| NotFound | Forbidden | HTTPException.

Global Instance exn_eq_dec : EqDecision exn.
Proof. solve_decision. Defined.

(** A [datetime.datetime]: the wall-clock reading in microseconds counted from
    1970-01-01T00:00:00 on that clock, and the UTC offset of an aware value
    ([None] for a naive one). *)
Record datetime : Type := Datetime { wall : Z; utcoffset : option Z }.

(** What [json.load] builds and [json.dump] accepts, and the tree of a JSON
    text (an object of a text is the list of its members).  A float is the
    rational it denotes.  [VIso d] is the [str] that [d.isoformat()] returns,
    kept as the datetime it spells; [VStr] holds every other string. *)
Inductive value : Type :=
| VNone
| VBool (b : bool)
| VInt (z : Z)
| VFloat (q : Q)
| VStr (s : string)
| VIso (d : datetime)
| VList (l : list value)
| VDict (d : list (string * value)).

(** An argument of a library call: a JSON value of the store, or a
    [datetime.timedelta] given in microseconds. *)
Inductive pyobj : Type :=
| Json (v : value)
| Timedelta (us : Z).

(** ** Dictionaries *)

Section dict.
Context {V : Type}.

(** [d.get(k)] *)
Fixpoint dict_get (d : list (string * V)) (k : string) : option V :=
  match d with
  | [] => None
  | (k', v) :: d' => if String.eqb k k' then Some v else dict_get d' k
  end.

(** [k in d] *)
Definition dict_mem (d : list (string * V)) (k : string) : bool :=
  match dict_get d k with Some _ => true | None => false end.

(** [d[k] = v]: a present key keeps its place, a new key goes last. *)
Fixpoint dict_set (d : list (string * V)) (k : string) (v : V)
  : list (string * V) :=
  match d with
  | [] => [(k, v)]
  | (k', v') :: d' =>
      if String.eqb k k' then (k, v) :: d' else (k', v') :: dict_set d' k v
  end.

(** [del d[k]] *)
Fixpoint dict_del (d : list (string * V)) (k : string) : list (string * V) :=
  match d with
  | [] => []
  | (k', v') :: d' =>
      if String.eqb k k' then dict_del d' k else (k', v') :: dict_del d' k
  end.

Definition dict_keys (d : list (string * V)) : list string := map fst d.
End dict.

(** ** Operators on values *)

(** [bool(v)] *)
Definition truthy (v : value) : bool :=
  match v with
  | VNone => false
  | VBool b => b
  | VInt z => negb (z =? 0)
  | VFloat q => negb (Qeq_bool q 0)
  | VStr s => negb (String.eqb s "")
  | VIso _ => true
  | VList l => match l with [] => false | _ => true end
  | VDict d => match d with [] => false | _ => true end
  end.

(** The number a numeric value denotes ([bool] is a subclass of [int]). *)
Definition as_number (v : value) : option Q :=
  match v with
  | VBool b => Some (inject_Z (if b then 1 else 0))
  | VInt z => Some (inject_Z z)
  | VFloat q => Some q
  | _ => None
  end.

(** [n == v] for an [int] n: never raises, false across types. *)
Definition int_eq (n : Z) (v : value) : bool :=
  match as_number v with
  | Some q => Qeq_bool (inject_Z n) q
  | None => false
  end.

Definition Qltb (x y : Q) : bool := negb (Qle_bool y x).

(** [v[k]] for a string key: only a dictionary can be indexed by a string. *)
Definition subscript (v : value) (k : string) : exn + value :=
  match v with
  | VDict d => match dict_get d k with Some x => inr x | None => inl KeyError end
  | _ => inl TypeError
  end.

(** [v.get(k, default)]: only a dictionary has [get]. *)
Definition get_default (v : value) (k : string) (default : value)
  : exn + value :=
  match v with
  | VDict d => inr (match dict_get d k with Some x => x | None => default end)
  | _ => inl AttributeError
  end.

(** ** Dates and times *)

Definition us_per_second : Z := 1000000.
Definition us_per_minute : Z := 60 * us_per_second.
Definition us_per_hour : Z := 60 * us_per_minute.
Definition us_per_day : Z := 24 * us_per_hour.

Definition dt_hour (d : datetime) : Z := (wall d / us_per_hour) mod 24.
Definition dt_minute (d : datetime) : Z := (wall d / us_per_minute) mod 60.
(** Monday is 0; 1970-01-01 was a Thursday. *)
Definition dt_weekday (d : datetime) : Z := (wall d / us_per_day + 3) mod 7.

(** [datetime.timezone(offset)]: the offset must be a [timedelta] strictly
    between -24 and 24 hours. *)
Definition datetime_timezone (offset : pyobj) : exn + Z :=
  match offset with
  | Timedelta us =>
      if (- us_per_day <? us) && (us <? us_per_day) then inr us
      else inl ValueError
  | Json _ => inl TypeError
  end.

(** [datetime.datetime.now(tz)] at the instant [t] (microseconds of UTC). *)
Definition datetime_now (t : Z) (tz : Z) : datetime :=
  {| wall := t + tz; utcoffset := Some tz |}.

(** [datetime.datetime.now()]: the naive local reading. *)
Definition datetime_now_naive (t : Z) (local : Z) : datetime :=
  {| wall := t + local; utcoffset := None |}.

(** [datetime.datetime.fromisoformat(v)] *)
Definition fromisoformat (v : value) : exn + datetime :=
  match v with
  | VIso d => inr d
  | VStr _ => inl ValueError
  | _ => inl TypeError
  end.

(** [a - b] in microseconds: both aware or both naive. *)
Definition dt_sub (a b : datetime) : exn + Z :=
  match utcoffset a, utcoffset b with
  | Some oa, Some ob => inr ((wall a - oa) - (wall b - ob))
  | None, None => inr (wall a - wall b)
  | _, _ => inl TypeError
  end.

(** [int(s)] for the keys of the store: an optional sign and decimal digits
    (the keys the bot writes are [str(user_id)]). *)
Definition digit_of (c : ascii) : option Z :=
  let n := Z.of_N (N_of_ascii c) in
  if (48 <=? n) && (n <=? 57) then Some (n - 48) else None.

Fixpoint digits_value (acc : Z) (s : string) : option Z :=
  match s with
  | EmptyString => Some acc
  | String c r =>
      match digit_of c with
      | Some n => digits_value (10 * acc + n) r
      | None => None
      end
  end.

Definition py_int (s : string) : exn + Z :=
  let unsigned (r : string) : option Z :=
    match r with EmptyString => None | _ => digits_value 0 r end in
  let parsed :=
    match s with
    | String "-" r => Z.opp <$> unsigned r
    | String "+" r => unsigned r
    | _ => unsigned s
    end in
  match parsed with Some z => inr z | None => inl ValueError end.

(** [str(user_id)] *)
Definition py_str (z : Z) : string := pretty z.

(** ** The bot and its collaborators *)

Inductive check : Type := Morning | Evening | Activity | Weekly.

(** The texts the commands answer with, by the place that sends them. *)
Inductive reply : Type :=
| AlreadyConnected | Welcome | SomethingWentWrong
| BeginFirst | InvalidHour | InvalidCheckType
| UpdatedTime (check_type : string) (hour : Z) (zone : value)
| UpdatedWeeklyReview (day : string) (hour : Z) (zone : value)
| UpdatedActivityCheck (interval : Z) (probability : Q)
| UpdatedTimezone (zone : string) | InvalidTimezone
| TakingABreak | NotStartedYet.

(** What the bot does to the outside: direct messages, answers to slash
    commands ([None]: the answer of [on_application_command_error]), and the
    lines it prints. *)
Inductive event : Type :=
| Sent (uid : Z) (text : string)
| Responded (uid : Z) (answer : option reply)
| CouldNotFind (user_id : string)
| ErrorIn (c : check) (user_id : string) (e : exn)
| AddedUser (uid : Z).

(** [user_data.json]: absent, or a document, given by the members of its
    top-level object as the text lists them (each a name and the tree of its
    value; the text may repeat a name). *)
Inductive disk : Type :=
| Missing
| Doc (members : list (string * value)).

(** The state of the process: [self.user_data], the file, the memory of
    [self.llm_handler], how many clock readings and random draws were made,
    and the events so far. *)
Record bot : Type := Bot {
  user_data : list (string * value);
  file : disk;
  memory : gmap string string;
  reads : nat;
  draws : nat;
  trace : list event
}.

(** The surroundings of a run: the clock (the n-th reading, in microseconds of
    UTC), the offset of the local zone, the generator (the n-th draw) and the
    messaging client ([None]: the call succeeds). *)
Record world : Type := World {
  clock : nat -> Z;
  local_offset : Z;
  rng : nat -> N;
  fetch_user : Z -> option exn;
  send : Z -> string -> option exn
}.

Definition set_user_data (d : list (string * value)) (b : bot) : bot :=
  Bot d (file b) (memory b) (reads b) (draws b) (trace b).
Definition set_file (f : disk) (b : bot) : bot :=
  Bot (user_data b) f (memory b) (reads b) (draws b) (trace b).
Definition set_memory (m : gmap string string) (b : bot) : bot :=
  Bot (user_data b) (file b) m (reads b) (draws b) (trace b).
Definition tick_clock (b : bot) : bot :=
  Bot (user_data b) (file b) (memory b) (S (reads b)) (draws b) (trace b).
Definition tick_rng (b : bot) : bot :=
  Bot (user_data b) (file b) (memory b) (reads b) (S (draws b)) (trace b).
Definition emit (e : event) (b : bot) : bot :=
  Bot (user_data b) (file b) (memory b) (reads b) (draws b) (trace b ++ [e]).

(** *** Computations that may raise *)

Definition M (A : Type) : Type := bot -> (exn + A) * bot.

Definition ret {A} (a : A) : M A := fun b => (inr a, b).
Definition raise {A} (e : exn) : M A := fun b => (inl e, b).
Definition lift {A} (r : exn + A) : M A := fun b => (r, b).
Definition bind {A B} (m : M A) (f : A -> M B) : M B :=
  fun b =>
    match m b with
    | (inl e, b') => (inl e, b')
    | (inr a, b') => f a b'
    end.
Definition modify (f : bot -> bot) : M unit := fun b => (inr tt, f b).

Declare Scope py_scope.
Delimit Scope py_scope with py.
Notation "x <- m ;; k" := (bind m (fun x => k))
  (at level 100, m at next level, right associativity) : py_scope.
Notation "m ;; k" := (bind m (fun _ => k))
  (at level 100, right associativity) : py_scope.
Local Open Scope py_scope.

(** [datetime.datetime.now(...)] reads the clock. *)
Definition read_clock (w : world) : M Z :=
  fun b => (inr (clock w (reads b)), tick_clock b).

(** [random.random()]: 53 random bits scaled into [0, 1). *)
Definition two_53 : positive := 9007199254740992.
Definition sample_of (n : N) : Q := Z.of_N (n mod Npos two_53) # two_53.
Definition random_random (w : world) : M Q :=
  fun b => (inr (sample_of (rng w (draws b))), tick_rng b).

(** [random.choice(seq)]: an index below [len(seq)]. *)
Definition random_choice (w : world) (seq : list string) : M string :=
  match seq with
  | [] => raise IndexError
  | _ => fun b =>
           (inr (nth (N.to_nat (rng w (draws b)) mod length seq) seq ""),
            tick_rng b)
  end.

(** [await self.fetch_user(uid)] *)
Definition fetch (w : world) (uid : Z) : M Z :=
  match fetch_user w uid with
  | Some e => raise e
  | None => ret uid
  end.

(** [await user.send(text)] *)
Definition user_send (w : world) (user : Z) (text : string) : M unit :=
  match send w user text with
  | Some e => raise e
  | None => modify (emit (Sent user text))
  end.

(** [self.save_data()]: [json.dump] writes the whole mapping out, entry by
    entry. *)
Definition save_data : M unit :=
  modify (fun b => set_file (Doc (user_data b)) b).

(** [json.load]: a document is read member by member into dictionaries, at
    every depth; a name that occurs again replaces the value read before and
    keeps its place. *)
Fixpoint json_load (v : value) : value :=
  match v with
  | VList l => VList (map json_load l)
  | VDict members =>
      VDict (fold_left (fun d '(k, x) => dict_set d k (json_load x))
               members [])
  | _ => v
  end.

Definition json_load_object (members : list (string * value))
  : list (string * value) :=
  fold_left (fun d '(k, x) => dict_set d k (json_load x)) members [].

(** [self.load_data()]: a missing file gives the empty mapping. *)
Definition load_data (f : disk) : list (string * value) :=
  match f with
  | Doc members => json_load_object members
  | Missing => []
  end.

(** ** The scheduled checks *)

(** [self.default_config]; 0.3 is the double nearest to three tenths. *)
Definition default_config : value :=
  VDict [ ("morning_check_hour", VInt 9);
          ("evening_review_hour", VInt 21);
          ("weekly_review_day", VStr "SUNDAY");
          ("weekly_review_hour", VInt 18);
          ("activity_check_interval", VInt 30);
          ("activity_check_probability",
             VFloat (5404319552844595 # 18014398509481984));
          ("timezone", VStr "UTC");
          ("clockify_api_key", VNone);
          ("clockify_enabled", VBool false) ].

Definition morning_messages : list string :=
  [ "hey, what are you planning to work on today?";
    "what are you thinking of getting done today?";
    "hey there, what's the plan for today?" ].

Definition evening_messages : list string :=
  [ "hey, how did your day go?";
    "what did you end up working on today?";
    "how was your day? what worked/didnt work?";
    "lets review what you got done today" ].

Definition activity_check_messages : list string :=
  [ "what are you working on rn?";
    "hey, hows the current task going?";
    "quick check - what are you up to?" ].

Definition weekly_review_message : string :=
  "Time for our weekly review! How did your week go?".

(** The [try ... except discord.NotFound ... except Exception] around the
    body of each loop: the exception is printed and the loop goes on. *)
Definition guarded (c : check) (user_id : string) (body : M unit) (b : bot)
  : bot :=
  match body b with
  | (inr _, b') => b'
  | (inl NotFound, b') => emit (CouldNotFind user_id) b'
  | (inl e, b') => emit (ErrorIn c user_id e) b'
  end.

(** [for user_id, user_data in self.user_data.items()]: the keys present when
    the loop starts, in insertion order; the loop variable [user_data] is the
    object stored under the key, so it is read from the live store. *)
Fixpoint for_users (body : string -> value -> bot -> bot)
    (keys : list string) (b : bot) : bot :=
  match keys with
  | [] => b
  | user_id :: rest =>
      for_users body rest
        (match dict_get (user_data b) user_id with
         | Some record => body user_id record b
         | None => b
         end)
  end.

(** The body of the loop of [morning_check], from the reading of the clock
    on: what runs once [user_tz] is there. *)
Definition morning_check_in_zone (w : world) (user_id : string)
    (config : value) (user_tz : Z) : M unit :=
  t <- read_clock w ;;
  let user_time := datetime_now t user_tz in
  hour <- lift (subscript config "morning_check_hour") ;;
  if int_eq (dt_hour user_time) hour && (dt_minute user_time =? 0) then
    uid <- lift (py_int user_id) ;;
    user <- fetch w uid ;;
    text <- random_choice w morning_messages ;;
    user_send w user text
  else ret tt.

(** The body of the loop of [morning_check]. *)
Definition morning_check_user (w : world) (user_id : string)
    (record : value) : M unit :=
  config <- lift (get_default record "config" default_config) ;;
  zone <- lift (subscript config "timezone") ;;
  user_tz <- lift (datetime_timezone (Json zone)) ;;
  morning_check_in_zone w user_id config user_tz.

Definition morning_check (w : world) (b : bot) : bot :=
  for_users (fun user_id record =>
               guarded Morning user_id (morning_check_user w user_id record))
            (dict_keys (user_data b)) b.

(** The body of the loop of [evening_review], from the reading of the clock
    on. *)
Definition evening_review_in_zone (w : world) (user_id : string)
    (config : value) (user_tz : Z) : M unit :=
  t <- read_clock w ;;
  let user_time := datetime_now t user_tz in
  hour <- lift (subscript config "evening_review_hour") ;;
  if int_eq (dt_hour user_time) hour && (dt_minute user_time =? 0) then
    uid <- lift (py_int user_id) ;;
    user <- fetch w uid ;;
    text <- random_choice w evening_messages ;;
    user_send w user text
  else ret tt.

(** The body of the loop of [evening_review]. *)
Definition evening_review_user (w : world) (user_id : string)
    (record : value) : M unit :=
  config <- lift (get_default record "config" default_config) ;;
  zone <- lift (subscript config "timezone") ;;
  user_tz <- lift (datetime_timezone (Json zone)) ;;
  evening_review_in_zone w user_id config user_tz.

Definition evening_review (w : world) (b : bot) : bot :=
  for_users (fun user_id record =>
               guarded Evening user_id (evening_review_user w user_id record))
            (dict_keys (user_data b)) b.

(** [day_map[v]]: a list or a dictionary is unhashable, any other missing key
    is a [KeyError]. *)
Definition day_map : list (string * Z) :=
  [ ("MON", 0); ("TUE", 1); ("WED", 2); ("THU", 3);
    ("FRI", 4); ("SAT", 5); ("SUN", 6) ].

Definition day_map_lookup (v : value) : exn + Z :=
  match v with
  | VStr s =>
      match dict_get day_map s with Some n => inr n | None => inl KeyError end
  | VList _ | VDict _ => inl TypeError
  | _ => inl KeyError
  end.

(** The body of the loop of [weekly_review_check], from the reading of the
    clock on; [and] does not evaluate its right operand when the left one is
    false. *)
Definition weekly_review_check_in_zone (w : world) (user_id : string)
    (config : value) (user_tz : Z) : M unit :=
  t <- read_clock w ;;
  let user_time := datetime_now t user_tz in
  day <- lift (subscript config "weekly_review_day") ;;
  day_number <- lift (day_map_lookup day) ;;
  if dt_weekday user_time =? day_number then
    hour <- lift (subscript config "weekly_review_hour") ;;
    if int_eq (dt_hour user_time) hour && (dt_minute user_time =? 0) then
      uid <- lift (py_int user_id) ;;
      user <- fetch w uid ;;
      user_send w user weekly_review_message
    else ret tt
  else ret tt.

(** The body of the loop of [weekly_review_check]. *)
Definition weekly_review_check_user (w : world) (user_id : string)
    (record : value) : M unit :=
  config <- lift (get_default record "config" default_config) ;;
  zone <- lift (subscript config "timezone") ;;
  user_tz <- lift (datetime_timezone (Json zone)) ;;
  weekly_review_check_in_zone w user_id config user_tz.

Definition weekly_review_check (w : world) (b : bot) : bot :=
  for_users (fun user_id record =>
               guarded Weekly user_id
                 (weekly_review_check_user w user_id record))
            (dict_keys (user_data b)) b.

(** The test of [activity_check]:
    [not last_check or
     (current_time - last_check).total_seconds() >= interval * 60].
    [total_seconds()] is the elapsed microseconds over a million, taken
    exactly; only a number survives both the product and the comparison. *)
Definition activity_due (config : value) (last_check : option datetime)
    (current_time : datetime) : exn + bool :=
  match last_check with
  | None => inr true
  | Some last =>
      match dt_sub current_time last with
      | inl e => inl e
      | inr elapsed =>
          match subscript config "activity_check_interval" with
          | inl e => inl e
          | inr interval =>
              match as_number interval with
              | Some minutes =>
                  inr (Qle_bool (minutes * 60) (elapsed # 1000000))
              | None => inl TypeError
              end
          end
      end
  end.

(** [self.user_data[user_id]["last_activity_check"] = v] *)
Definition store_last_activity_check (user_id : string) (v : value)
  : M unit :=
  fun b =>
    match dict_get (user_data b) user_id with
    | None => (inl KeyError, b)
    | Some (VDict fields) =>
        (inr tt,
         set_user_data
           (dict_set (user_data b) user_id
              (VDict (dict_set fields "last_activity_check" v))) b)
    | Some _ => (inl TypeError, b)
    end.

(** [last_check = user_data.get("last_activity_check")], converted with
    [fromisoformat] when it is truthy. *)
Definition read_last_check (record : value) : exn + option datetime :=
  match get_default record "last_activity_check" VNone with
  | inl e => inl e
  | inr stored =>
      if truthy stored then
        match fromisoformat stored with
        | inl e => inl e
        | inr d => inr (Some d)
        end
      else inr None
  end.

(** The body of the loop of [activity_check]. *)
Definition activity_check_user (w : world) (user_id : string)
    (record : value) : M unit :=
  config <- lift (get_default record "config" default_config) ;;
  last_check <- lift (read_last_check record) ;;
  t <- read_clock w ;;
  let current_time := datetime_now t 0 in
  due <- lift (activity_due config last_check current_time) ;;
  if due : bool then
    sample <- random_random w ;;
    probability <- lift (subscript config "activity_check_probability") ;;
    below <- lift (match as_number probability with
                   | Some p => inr (Qltb sample p)
                   | None => inl TypeError
                   end) ;;
    (if below : bool then
       uid <- lift (py_int user_id) ;;
       user <- fetch w uid ;;
       text <- random_choice w activity_check_messages ;;
       user_send w user text
     else ret tt) ;;
    store_last_activity_check user_id (VIso current_time) ;;
    save_data
  else ret tt.

Definition activity_check (w : world) (b : bot) : bot :=
  for_users (fun user_id record =>
               guarded Activity user_id (activity_check_user w user_id record))
            (dict_keys (user_data b)) b.

(** Whether the check of a record is due when the clock reads [t]: the
    test of [activity_check_user] on its own. *)
Definition due_at (record : value) (t : Z) : exn + bool :=
  match get_default record "config" default_config with
  | inl e => inl e
  | inr config =>
      match read_last_check record with
      | inl e => inl e
      | inr last_check => activity_due config last_check (datetime_now t 0)
      end
  end.

(** ** The slash commands *)

Inductive command : Type :=
| Begin
| Stop
| SetTime (check_type : string) (hour : Z)
| SetWeeklyReview (day : string) (hour : Z)
| SetActivityCheck (interval : Z) (probability : Q)
| SetTimezone (zone : string).

(** [await ctx.respond(...)] *)
Definition respond (r : reply) : M reply := ret r.

(** [self.user_data[user_id]["config"][key] = v] *)
Definition store_config (user_id key : string) (v : value) : M unit :=
  fun b =>
    match dict_get (user_data b) user_id with
    | None => (inl KeyError, b)
    | Some (VDict fields) =>
        match dict_get fields "config" with
        | None => (inl KeyError, b)
        | Some (VDict config) =>
            (inr tt,
             set_user_data
               (dict_set (user_data b) user_id
                  (VDict (dict_set fields "config"
                            (VDict (dict_set config key v))))) b)
        | Some _ => (inl TypeError, b)
        end
    | Some _ => (inl TypeError, b)
    end.

(** [self.user_data[user_id]["config"]["timezone"]], read for the answer. *)
Definition stored_zone (user_id : string) : M value :=
  fun b =>
    (match dict_get (user_data b) user_id with
     | None => inl KeyError
     | Some record =>
         match subscript record "config" with
         | inl e => inl e
         | inr config => subscript config "timezone"
         end
     end, b).

(** [add_user]: a new record with a copy of the default configuration. *)
Definition add_user (w : world) (user_id : Z) : M unit :=
  fun b =>
    if dict_mem (user_data b) (py_str user_id) then (inr tt, b)
    else
      (t <- read_clock w ;;
       modify (fun b =>
         set_user_data
           (dict_set (user_data b) (py_str user_id)
              (VDict [ ("joined_date",
                          VIso (datetime_now_naive t (local_offset w)));
                       ("weekly_plans", VList []);
                       ("daily_logs", VList []);
                       ("last_interaction", VNone);
                       ("last_activity_check", VNone);
                       ("config", default_config) ])) b) ;;
       save_data ;;
       modify (emit (AddedUser user_id))) b.

(** [begin_tracking] *)
Definition begin_tracking (w : world) (author : Z) : M reply :=
  fun b =>
    let attempt : M reply :=
      fun b =>
        if dict_mem (user_data b) (py_str author)
        then respond AlreadyConnected b
        else (add_user w author ;; respond Welcome) b in
    match attempt b with
    | (inl _, b') => respond SomethingWentWrong b'
    | ok => ok
    end.

(** [stop] *)
Definition stop (author : Z) : M reply :=
  fun b =>
    let user_id := py_str author in
    if dict_mem (user_data b) user_id then
      (modify (fun b => set_user_data (dict_del (user_data b) user_id) b) ;;
       save_data ;;
       respond TakingABreak) b
    else respond NotStartedYet b.

(** [set_time] *)
Definition set_time (author : Z) (check_type : string) (hour : Z) : M reply :=
  fun b =>
    let user_id := py_str author in
    if negb (dict_mem (user_data b) user_id) then respond BeginFirst b
    else if (hour <? 0) || (23 <? hour) then respond InvalidHour b
    else if negb (String.eqb check_type "morning_check"
                  || String.eqb check_type "evening_review")
    then respond InvalidCheckType b
    else
      (store_config user_id (check_type +:+ "_hour") (VInt hour) ;;
       save_data ;;
       zone <- stored_zone user_id ;;
       respond (UpdatedTime check_type hour zone)) b.

(** [set_weekly_review] *)
Definition set_weekly_review (author : Z) (day : string) (hour : Z)
  : M reply :=
  fun b =>
    let user_id := py_str author in
    if negb (dict_mem (user_data b) user_id) then respond BeginFirst b
    else
      (store_config user_id "weekly_review_day" (VStr day) ;;
       store_config user_id "weekly_review_hour" (VInt hour) ;;
       save_data ;;
       zone <- stored_zone user_id ;;
       respond (UpdatedWeeklyReview day hour zone)) b.

(** [set_activity_check] *)
Definition set_activity_check (author : Z) (interval : Z) (probability : Q)
  : M reply :=
  fun b =>
    let user_id := py_str author in
    if negb (dict_mem (user_data b) user_id) then respond BeginFirst b
    else
      (store_config user_id "activity_check_interval" (VInt interval) ;;
       store_config user_id "activity_check_probability"
         (VFloat probability) ;;
       save_data ;;
       respond (UpdatedActivityCheck interval probability)) b.

(** [set_timezone]: the zone is tried out with [datetime.timezone] before it
    is stored. *)
Definition set_timezone (w : world) (author : Z) (zone : string) : M reply :=
  fun b =>
    let user_id := py_str author in
    if negb (dict_mem (user_data b) user_id) then respond BeginFirst b
    else
      let attempt : M reply :=
        _ <- read_clock w ;;
        _ <- lift (datetime_timezone (Json (VStr zone))) ;;
        store_config user_id "timezone" (VStr zone) ;;
        save_data ;;
        respond (UpdatedTimezone zone) in
      match attempt b with
      | (inl _, b') => respond InvalidTimezone b'
      | ok => ok
      end.

(** A command run by the client; an exception that leaves the handler goes to
    [on_application_command_error]. *)
Definition run_command (w : world) (author : Z) (c : command) (b : bot)
  : bot :=
  let handler : M reply :=
    match c with
    | Begin => begin_tracking w author
    | Stop => stop author
    | SetTime check_type hour => set_time author check_type hour
    | SetWeeklyReview day hour => set_weekly_review author day hour
    | SetActivityCheck interval probability =>
        set_activity_check author interval probability
    | SetTimezone zone => set_timezone w author zone
    end in
  match handler b with
  | (inr r, b') => emit (Responded author (Some r)) b'
  | (inl _, b') => emit (Responded author None) b'
  end.

(** ** The conversation router *)

(** *** Strings *)

(** [sub in s] and [s.find(sub, start)] *)
Definition py_contains (sub s : string) : bool :=
  match String.index 0 sub s with Some _ => true | None => false end.

Definition py_find (sub s : string) (start : nat) : Z :=
  match String.index start sub s with Some i => Z.of_nat i | None => -1 end.

(** [s[start:stop]] for indices that are not negative *)
Definition py_slice (s : string) (start stop : Z) : string :=
  String.substring (Z.to_nat start) (Z.to_nat stop - Z.to_nat start) s.

(** [s.replace(old, new)]: the occurrences of [old] from left to right, none
    overlapping another; an empty [old] matches between all characters. *)
Fixpoint replace_go (old new : string) (skip : nat) (s : string) : string :=
  match s with
  | EmptyString => EmptyString
  | String c r =>
      match skip with
      | S k => replace_go old new k r
      | O =>
          if String.prefix old s
          then new +:+ replace_go old new (String.length old - 1) r
          else String c (replace_go old new 0 r)
      end
  end.

Fixpoint intersperse (new s : string) : string :=
  match s with
  | EmptyString => new
  | String c r => new +:+ String c (intersperse new r)
  end.

Definition py_replace (s old new : string) : string :=
  match old with
  | EmptyString => intersperse new s
  | _ => replace_go old new 0 s
  end.

(** [s.strip()]: white space is tab to carriage return, the four separators
    below the space, and the space. *)
Definition is_space (c : ascii) : bool :=
  let n := N_of_ascii c in
  (((9 <=? n) && (n <=? 13)) || ((28 <=? n) && (n <=? 32)))%N.

Fixpoint lstrip (s : string) : string :=
  match s with
  | EmptyString => EmptyString
  | String c r => if is_space c then lstrip r else s
  end.

Fixpoint rstrip (s : string) : string :=
  match s with
  | EmptyString => EmptyString
  | String c r =>
      match rstrip r with
      | EmptyString => if is_space c then EmptyString else String c EmptyString
      | r' => String c r'
      end
  end.

Definition py_strip (s : string) : string := rstrip (lstrip s).

(** *** The memory of the language-model handler *)

(** The instructions [{"delete": [...], "update": {...}, "add": {...}}];
    a missing entry is [None]. *)
Record memory_instructions : Type := Instructions {
  mi_delete : option (list string);
  mi_update : option (list (string * string));
  mi_add : option (list (string * string))
}.

Definition quoted (s : string) : string := "'" +:+ s +:+ "'".

(** [LLMHandler._process_memory_instructions]: the memory after the
    instructions and the summary it returns. *)
Definition _process_memory_instructions (mi : memory_instructions)
    (mem : gmap string string) : gmap string string * string :=
  let after_delete :=
    match mi_delete mi with
    | None => (mem, "")
    | Some keys =>
        fold_left
          (fun '(m, out) key =>
             match m !! key with
             | Some _ =>
                 (delete key m,
                  out +:+ "Deleted memory for " +:+ quoted key +:+ ". ")
             | None => (m, out)
             end)
          keys (mem, "")
    end in
  let after_update :=
    match mi_update mi with
    | None => after_delete
    | Some items =>
        fold_left
          (fun '(m, out) '(key, v) =>
             (<[key := v]> m,
              out +:+ "Updated memory for " +:+ quoted key +:+ " to "
                  +:+ quoted v +:+ ". "))
          items after_delete
    end in
  match mi_add mi with
  | None => after_update
  | Some items =>
      fold_left
        (fun '(m, out) '(key, v) =>
           (<[key := v]> m,
            out +:+ "Added memory for " +:+ quoted key +:+ ": "
                +:+ quoted v +:+ ". "))
        items after_update
  end.

(** The language model and the time-tracking service, as the router sees
    them: the text answered to a prompt, and the report for a key ([None]
    when [setup] fails). *)
Record collaborators : Type := Collaborators {
  llm : string -> string;
  clockify : value -> option string
}.

(** [LLMHandler.process_evening_review]: the memory is touched only when
    instructions are passed in. *)
Definition process_evening_review (c : collaborators) (message : string)
    (record : value) (instructions : option memory_instructions) : M string :=
  (match instructions with
   | Some mi =>
       modify (fun b =>
                 set_memory (fst (_process_memory_instructions mi (memory b))) b)
   | None => ret tt
   end) ;;
  ret (llm c message).

(** [ArjunBot.process_evening_review_response] *)
Definition process_evening_review_response (c : collaborators)
    (author : Z) (content : string) : M string :=
  fun b =>
    match dict_get (user_data b) (py_str author) with
    | None => (inl KeyError, b)
    | Some record =>
        (response <- process_evening_review c content record None ;;
         config <- lift (get_default record "config" (VDict [])) ;;
         enabled <- lift (get_default config "clockify_enabled" VNone) ;;
         if truthy enabled then
           key <- lift (get_default config "clockify_api_key" VNone) ;;
           if truthy key then
             match clockify c key with
             | Some report =>
                 ret (response +:+ String "010" (String "010" report))
             | None => ret response
             end
           else ret response
         else ret response) b
    end.

Definition MEMORY_UPDATE : string := "MEMORY_UPDATE:".
Definition END_TRUE : string := "END_CONVERSATION: true".
Definition END_FALSE : string := "END_CONVERSATION: false".

(** The directive handling of [on_message]: what is cut out of the text. *)
Definition strip_memory_update (response : string) : string :=
  if py_contains MEMORY_UPDATE response then
    let memory_update_start := py_find MEMORY_UPDATE response 0 in
    let memory_update_end :=
      py_find "}" response (Z.to_nat memory_update_start) + 1 in
    let memory_update :=
      py_slice response memory_update_start memory_update_end in
    py_strip (py_replace response memory_update "")
  else response.

Definition strip_end_conversation (response : string) : string :=
  if py_contains END_TRUE response
  then py_strip (py_replace response END_TRUE "")
  else if py_contains END_FALSE response
  then py_strip (py_replace response END_FALSE "")
  else response.

(** [self.user_data[user_id]["last_interaction"] = v] *)
Definition store_last_interaction (user_id : string) (v : value) : M unit :=
  fun b =>
    match dict_get (user_data b) user_id with
    | None => (inl KeyError, b)
    | Some (VDict fields) =>
        (inr tt,
         set_user_data
           (dict_set (user_data b) user_id
              (VDict (dict_set fields "last_interaction" v))) b)
    | Some _ => (inl TypeError, b)
    end.

(** [on_message] for a message of [author]; [from_self] and [is_dm] are the
    two tests on the message. *)
Definition on_message (w : world) (c : collaborators) (author : Z)
    (from_self is_dm : bool) (content : string) : M unit :=
  fun b =>
    if from_self then (inr tt, b)
    else if is_dm then
      let user_id := py_str author in
      if dict_mem (user_data b) user_id then
        (t <- read_clock w ;;
         store_last_interaction user_id
           (VIso (datetime_now_naive t (local_offset w))) ;;
         response <- process_evening_review_response c author content ;;
         (if negb (String.eqb response "") then
            let response := strip_memory_update response in
            let response := strip_end_conversation response in
            user_send w author response
          else ret tt) ;;
         save_data) b
      else (inr tt, b)
    else (inr tt, b).

(** ** The bot as a transition system *)

Inductive input : Type :=
| Command (author : Z) (c : command)
| Tick (c : check)
| Message (author : Z) (from_self is_dm : bool) (content : string).

(** An exception that leaves [on_message] ends the handler; the state it
    reached stays. *)
Definition step (w : world) (c : collaborators) (i : input) (b : bot) : bot :=
  match i with
  | Command author cmd => run_command w author cmd b
  | Tick Morning => morning_check w b
  | Tick Evening => evening_review w b
  | Tick Activity => activity_check w b
  | Tick Weekly => weekly_review_check w b
  | Message author from_self is_dm content =>
      snd (on_message w c author from_self is_dm content b)
  end.

Definition run (w : world) (c : collaborators) (inputs : list input)
    (b : bot) : bot :=
  fold_left (fun b i => step w c i b) inputs b.

(** [ArjunBot.__init__]: the store is what [load_data] finds. *)
Definition start (f : disk) : bot := Bot (load_data f) f ∅ 0 0 [].

(** Whether the last of the opt-in and opt-out commands of [u] is an
    opt-in. *)
Definition opted_step (u : Z) (acc : bool) (i : input) : bool :=
  match i with
  | Command author Begin => if author =? u then true else acc
  | Command author Stop => if author =? u then false else acc
  | _ => acc
  end.

Definition opted_in (u : Z) (inputs : list input) : bool :=
  fold_left (opted_step u) inputs false.

(** ** Observations *)

(** The direct messages of a trace. *)
Definition sent (tr : list event) : list (Z * string) :=
  flat_map (fun e => match e with Sent u t => [(u, t)] | _ => [] end) tr.

(** [self.user_data[user_id][name]] when both exist. *)
Definition field (d : list (string * value)) (user_id name : string)
  : option value :=
  match dict_get d user_id with
  | Some (VDict fields) => dict_get fields name
  | _ => None
  end.

(** A record as [add_user] writes it, with the given configuration and last
    activity check. *)
Definition record_with (config last_activity_check : value) : value :=
  VDict [ ("joined_date", VIso (Datetime 0 None));
          ("weekly_plans", VList []);
          ("daily_logs", VList []);
          ("last_interaction", VNone);
          ("last_activity_check", last_activity_check);
          ("config", config) ].

(** A configuration that differs from the default one in the listed
    entries. *)
Definition config_with (changes : list (string * value)) : value :=
  match default_config with
  | VDict d => VDict (fold_left (fun d '(k, v) => dict_set d k v) changes d)
  | v => v
  end.

(** A world whose clock always reads [t], whose generator always draws [n]
    and whose messaging client answers as given. *)
Definition still_world (t : Z) (n : N) (fetching : Z -> option exn) : world :=
  World (fun _ => t) 0 (fun _ => n) fetching (fun _ _ => None).

(** A bot that has just loaded the given store. *)
Definition loaded (d : list (string * value)) : bot := start (Doc d).

(** 2022-01-08 (a Saturday) 09:00:00 UTC, one minute later, and the Sunday
    after at 18:00:00 UTC. *)
Definition at_0900 : Z := (19000 * 24 + 9) * us_per_hour.
Definition at_0901 : Z := at_0900 + us_per_minute.
Definition sunday_1800 : Z := (19001 * 24 + 18) * us_per_hour.

(** ** Notions used in the statements *)

(** What stays the same under a loop whose bodies only print. *)
Definition same_but_printed (b0 b : bot) : Prop :=
  user_data b = user_data b0 ∧ file b = file b0 ∧ memory b = memory b0
  ∧ reads b = reads b0 ∧ draws b = draws b0
  ∧ sent (trace b) = sent (trace b0).

(** The record of a user after a completed check at [now]. *)
Definition checked_at (fields : list (string * value)) (now : Z) : value :=
  VDict (dict_set fields "last_activity_check" (VIso (datetime_now now 0))).

(** The state after the two last statements of a due evaluation at [now]:
    the record is updated and the mapping is written out. *)
Definition store_check (user_id : string) (fields : list (string * value))
    (now : Z) (b : bot) : bot :=
  let d := dict_set (user_data b) user_id (checked_at fields now) in
  set_file (Doc d) (set_user_data d b).

(** The message a due evaluation picks when it starts with [draws b] draws
    made: the second draw of the evaluation. *)
Definition picked (w : world) (b : bot) : string :=
  nth (N.to_nat (rng w (S (draws b))) mod length activity_check_messages)
      activity_check_messages "".

(** The first failure of a dispatch to the user stored under [user_id]:
    [int(user_id)], then [fetch_user], then [send]. *)
Definition dispatch_failure (w : world) (user_id text : string)
  : option exn :=
  match py_int user_id with
  | inl e => Some e
  | inr uid =>
      match fetch_user w uid with
      | Some e => Some e
      | None => send w uid text
      end
  end.

(** The line printed for an exception. *)
Definition printed (c : check) (user_id : string) (e : exn) : event :=
  match e with
  | NotFound => CouldNotFind user_id
  | _ => ErrorIn c user_id e
  end.


(** Whether [u] has a record. *)
Definition tracked (b : bot) (u : Z) : bool :=
  dict_mem (user_data b) (py_str u).

(** The record [add_user] writes when the clock reads [t]. *)
Definition fresh_record (w : world) (t : Z) : value :=
  VDict [ ("joined_date", VIso (datetime_now_naive t (local_offset w)));
          ("weekly_plans", VList []);
          ("daily_logs", VList []);
          ("last_interaction", VNone);
          ("last_activity_check", VNone);
          ("config", default_config) ].



(** ** The time-tracking commands *)

(** [ClockifyHandler.setup] for a key: an empty key fails without a request;
    otherwise the service answers. *)
Definition clockify_setup (c : collaborators) (api_key : string) : bool :=
  if String.eqb api_key "" then false
  else match clockify c (VStr api_key) with Some _ => true | None => false end.

Inductive clockify_reply : Type :=
| PleaseBeginFirst | ClockifyEnabled | ClockifyFailed | ClockifyDisabled.

(** [set_clockify] *)
Definition set_clockify (c : collaborators) (author : Z) (api_key : string)
  : M clockify_reply :=
  fun b =>
    let user_id := py_str author in
    if negb (dict_mem (user_data b) user_id) then ret PleaseBeginFirst b
    else if clockify_setup c api_key then
      (store_config user_id "clockify_api_key" (VStr api_key) ;;
       store_config user_id "clockify_enabled" (VBool true) ;;
       save_data ;;
       ret ClockifyEnabled) b
    else ret ClockifyFailed b.

(** [disable_clockify] *)
Definition disable_clockify (author : Z) : M clockify_reply :=
  fun b =>
    let user_id := py_str author in
    if negb (dict_mem (user_data b) user_id) then ret PleaseBeginFirst b
    else
      (store_config user_id "clockify_enabled" (VBool false) ;;
       save_data ;;
       ret ClockifyDisabled) b.

(** Every input of the bot: those of [step], and the two time-tracking
    commands (their answers are the values the handlers return). *)
Inductive any_input : Type :=
| Plain (i : input)
| SetClockify (author : Z) (api_key : string)
| DisableClockify (author : Z).

Definition any_step (w : world) (c : collaborators) (i : any_input) (b : bot)
  : bot :=
  match i with
  | Plain i => step w c i b
  | SetClockify author api_key => snd (set_clockify c author api_key b)
  | DisableClockify author => snd (disable_clockify author b)
  end.

Definition any_run (w : world) (c : collaborators) (inputs : list any_input)
    (b : bot) : bot :=
  fold_left (fun b i => any_step w c i b) inputs b.

(** ** The shape of the records the bot writes *)

(** A dictionary follows a schema when every listed key is present with a
    value of the listed kind. *)
Definition follows (schema : list (string * (value -> Prop)))
    (d : list (string * value)) : Prop :=
  Forall (fun '(k, P) => exists v, dict_get d k = Some v /\ P v) schema.

Definition is_hour (v : value) : Prop :=
  exists h, v = VInt h /\ 0 <= h <= 23.
Definition is_int (v : value) : Prop := exists z, v = VInt z.
Definition is_float (v : value) : Prop := exists q, v = VFloat q.
Definition is_str (v : value) : Prop := exists s, v = VStr s.
Definition is_naive_time (v : value) : Prop :=
  exists t, v = VIso (Datetime t None).
Definition is_utc_time (v : value) : Prop :=
  exists t, v = VIso (datetime_now t 0).

Definition config_schema : list (string * (value -> Prop)) :=
  [ ("morning_check_hour", is_hour);
    ("evening_review_hour", is_hour);
    ("weekly_review_day", is_str);
    ("weekly_review_hour", is_int);
    ("activity_check_interval", is_int);
    ("activity_check_probability", is_float);
    ("timezone", fun v => v = VStr "UTC");
    ("clockify_api_key", fun v => v = VNone \/ is_str v);
    ("clockify_enabled", fun v => exists flag, v = VBool flag) ].

Definition record_schema : list (string * (value -> Prop)) :=
  [ ("joined_date", is_naive_time);
    ("weekly_plans", fun v => v = VList []);
    ("daily_logs", fun v => v = VList []);
    ("last_interaction", fun v => v = VNone \/ is_naive_time v);
    ("last_activity_check", fun v => v = VNone \/ is_utc_time v);
    ("config", fun v => exists config, v = VDict config
                                       /\ follows config_schema config) ].

(** Every record of the store is a dictionary that follows the schema. *)
Definition well_kept (b : bot) : Prop :=
  forall user_id record,
    dict_get (user_data b) user_id = Some record ->
    exists fields, record = VDict fields /\ follows record_schema fields.

(** What a value written under a key must be for the schema to stay
    followed. *)
Definition fits (schema : list (string * (value -> Prop))) (k : string)
    (v : value) : Prop :=
  forall P, In (k, P) schema -> P v.

(** The file holds what the store holds. *)
Definition written_out (b : bot) : Prop := file b = Doc (user_data b).

(** A computation keeps the records in shape. *)
Definition keeps {A} (m : M A) : Prop :=
  forall b, well_kept b -> well_kept (snd (m b)).

(** A run of three inputs used to illustrate the properties of runs: user 42
    opts in, sets the morning check to 7, and asks for the zone US/Pacific. *)
Definition sample_inputs : list any_input :=
  [ Plain (Command 42 Begin);
    Plain (Command 42 (SetTime "morning_check" 7));
    Plain (Command 42 (SetTimezone "US/Pacific")) ].

Definition quiet_collaborators : collaborators :=
  Collaborators (fun _ => "") (fun _ => None).

(** The state of [on_message] once the time of the message is stored in the
    record ([fields]) of its author. *)
Definition stamped (w : world) (author : Z) (fields : list (string * value))
    (b : bot) : bot :=
  set_user_data
    (dict_set (user_data b) (py_str author)
       (VDict (dict_set fields "last_interaction"
                 (VIso (datetime_now_naive (clock w (reads b))
                          (local_offset w))))))
    (tick_clock b).

(** The text [on_message] hands to [send] for a reply of the model. *)
Definition outgoing (response : string) : string :=
  strip_end_conversation (strip_memory_update response).

(** ** Notions for the memory instructions *)

(** The value of the last item with key [k], if any. *)
Fixpoint last_value (items : list (string * string)) (k : string)
  : option string :=
  match items with
  | [] => None
  | (k', v) :: rest =>
      match last_value rest k with
      | Some x => Some x
      | None => if String.eqb k k' then Some v else None
      end
  end.

(** The entries of an instruction, a missing entry counting as empty. *)
Definition entries {A} (o : option (list A)) : list A :=
  match o with Some l => l | None => [] end.

(** ** The time-tracking reports ([src/clockify_handler.py]) *)

(** A time entry as the reports read it: the two ends of [timeInterval],
    parsed (instants of UTC in microseconds, as the service writes them with
    a final [Z]), and, when the entry has the keys, the strings under
    [projectName] and [description]. *)
Record time_entry : Type := TimeEntry {
  entry_start : Z;
  entry_end : Z;
  projectName : option string;
  description : option string
}.

(** [duration = end_time - start_time], [entry.get("projectName", ...)] and
    [entry.get("description", ...)] *)
Definition entry_duration (e : time_entry) : Z := entry_end e - entry_start e.
Definition entry_project (e : time_entry) : string :=
  match projectName e with Some p => p | None => "No Project" end.
Definition entry_description (e : time_entry) : string :=
  match description e with Some d => d | None => "No description" end.

(** [ClockifyHandler._format_duration] of a [timedelta] in microseconds:
    [int(total_minutes // 60)] and [int(total_minutes % 60)], both rounded
    down.  The quotients are taken exactly; the source takes them in floating
    point, which gives the same digits for intervals timed to the second. *)
Definition _format_duration (duration : Z) : string :=
  py_str (duration / us_per_hour) +:+ "h "
    +:+ py_str ((duration / us_per_minute) mod 60) +:+ "m".

(** One project of a report: its total and its activities, in order. *)
Definition project_group : Type := (Z * list (string * Z))%type.

(** The body of the loop of [generate_daily_report] on the dictionary
    [projects]: the project is entered when it is new, then the entry is
    added to it. *)
Definition add_to_project (projects : list (string * project_group))
    (e : time_entry) : list (string * project_group) :=
  let '(total_time, activities) :=
    match dict_get projects (entry_project e) with
    | Some group => group
    | None => (0, [])
    end in
  dict_set projects (entry_project e)
    (total_time + entry_duration e,
     activities ++ [(entry_description e, entry_duration e)]).

(** The loop of [generate_daily_report]: [total_duration] and [projects]. *)
Definition daily_totals (entries : list time_entry)
  : Z * list (string * project_group) :=
  fold_left
    (fun '(total_duration, projects) e =>
       (total_duration + entry_duration e, add_to_project projects e))
    entries (0, []).

Definition newline : string := String "010" EmptyString.

Fixpoint join_all (parts : list string) : string :=
  match parts with
  | [] => EmptyString
  | p :: rest => p +:+ join_all rest
  end.

Definition render_activity (a : string * Z) : string :=
  "- " +:+ fst a +:+ " (" +:+ _format_duration (snd a) +:+ ")" +:+ newline.

Definition render_daily_project (p : string * project_group) : string :=
  "### " +:+ fst p +:+ newline
    +:+ "Total: " +:+ _format_duration (fst (snd p)) +:+ newline +:+ newline
    +:+ "Activities:" +:+ newline
    +:+ join_all (map render_activity (snd (snd p)))
    +:+ newline.

(** [ClockifyHandler.generate_daily_report] *)
Definition generate_daily_report (entries : list time_entry) : string :=
  match entries with
  | [] => "No time entries recorded for today."
  | _ =>
      let '(total_duration, projects) := daily_totals entries in
      "## Daily Time Report" +:+ newline +:+ newline
        +:+ "Total time tracked: " +:+ _format_duration total_duration
        +:+ newline +:+ newline
        +:+ join_all (map render_daily_project projects)
  end.

(** [start_time.strftime("%A")] for a time in UTC *)
Definition day_names : list string :=
  [ "Monday"; "Tuesday"; "Wednesday"; "Thursday"; "Friday"; "Saturday";
    "Sunday" ].
Definition entry_day (e : time_entry) : string :=
  nth (Z.to_nat (dt_weekday (datetime_now (entry_start e) 0))) day_names "".

(** One day of a weekly report: its total and its projects. *)
Definition day_group : Type := (Z * list (string * project_group))%type.

(** The body of the loop of [generate_weekly_report] on [days]. *)
Definition add_to_day (days : list (string * day_group)) (e : time_entry)
  : list (string * day_group) :=
  let '(total_time, projects) :=
    match dict_get days (entry_day e) with
    | Some group => group
    | None => (0, [])
    end in
  dict_set days (entry_day e)
    (total_time + entry_duration e, add_to_project projects e).

(** The loop of [generate_weekly_report]: [total_duration] and [days]. *)
Definition weekly_totals (entries : list time_entry)
  : Z * list (string * day_group) :=
  fold_left
    (fun '(total_duration, days) e =>
       (total_duration + entry_duration e, add_to_day days e))
    entries (0, []).

Definition render_weekly_project (p : string * project_group) : string :=
  "#### " +:+ fst p +:+ newline
    +:+ "Total: " +:+ _format_duration (fst (snd p)) +:+ newline
    +:+ "Activities:" +:+ newline
    +:+ join_all (map render_activity (snd (snd p)))
    +:+ newline.

Definition render_day (d : string * day_group) : string :=
  "### " +:+ fst d +:+ newline
    +:+ "Total: " +:+ _format_duration (fst (snd d)) +:+ newline +:+ newline
    +:+ join_all (map render_weekly_project (snd (snd d))).

(** [ClockifyHandler.generate_weekly_report] *)
Definition generate_weekly_report (entries : list time_entry) : string :=
  match entries with
  | [] => "No time entries recorded for this week."
  | _ =>
      let '(total_duration, days) := weekly_totals entries in
      "## Weekly Time Report" +:+ newline +:+ newline
        +:+ "Total time tracked: " +:+ _format_duration total_duration
        +:+ newline +:+ newline
        +:+ join_all (map render_day days)
  end.

(** The entries of a project, of a day; the sum of their durations; and
    what the report lists for them. *)
Definition of_project (p : string) (entries : list time_entry)
  : list time_entry :=
  filter (fun e => String.eqb p (entry_project e) = true) entries.
Definition of_day (d : string) (entries : list time_entry)
  : list time_entry :=
  filter (fun e => String.eqb d (entry_day e) = true) entries.
Definition sum_durations (entries : list time_entry) : Z :=
  fold_right (fun e t => entry_duration e + t) 0 entries.
Definition activity_of (e : time_entry) : string * Z :=
  (entry_description e, entry_duration e).
Definition sum_totals {G} (groups : list (string * (Z * G))) : Z :=
  fold_right (fun g t => fst (snd g) + t) 0 groups.


(** ** Notions for the recipients of messages *)

(** Every key of the store is [str] of an identifier. *)
Definition keyed_by_str (b : bot) : Prop :=
  forall k, dict_mem (user_data b) k = true -> exists a, k = py_str a.

(** * Properties *)

(** ** Dictionaries *)

Section dict_facts.
Context {V : Type}.
Implicit Types (d : list (string * V)) (k : string) (v : V).

Lemma dict_get_set_eq d k v : dict_get (dict_set d k v) k = Some v.
Proof.
  induction d as [|[k' v'] d IH]; simpl.
  - by rewrite String.eqb_refl.
  - destruct (String.eqb k k') eqn:E; simpl.
    + by rewrite String.eqb_refl.
    + by rewrite E.
Qed.

Lemma dict_get_set_ne d k k' v :
  k ≠ k' → dict_get (dict_set d k v) k' = dict_get d k'.
Proof.
  intros Hne. induction d as [|[k0 v0] d IH]; simpl.
  - destruct (String.eqb k' k) eqn:E; [|done].
    apply String.eqb_eq in E. congruence.
  - destruct (String.eqb k k0) eqn:E; simpl.
    + apply String.eqb_eq in E. subst k0.
      destruct (String.eqb k' k) eqn:E'; [|done].
      apply String.eqb_eq in E'. congruence.
    + by rewrite IH.
Qed.

Lemma dict_get_del_eq d k : dict_get (dict_del d k) k = None.
Proof.
  induction d as [|[k' v'] d IH]; simpl; [done|].
  destruct (String.eqb k k') eqn:E; simpl; [done|]. by rewrite E.
Qed.

Lemma dict_get_del_ne d k k' :
  k ≠ k' → dict_get (dict_del d k) k' = dict_get d k'.
Proof.
  intros Hne. induction d as [|[k0 v0] d IH]; simpl; [done|].
  destruct (String.eqb k k0) eqn:E; simpl.
  - apply String.eqb_eq in E. subst k0.
    destruct (String.eqb k' k) eqn:E'; [|done].
    apply String.eqb_eq in E'. congruence.
  - by rewrite IH.
Qed.

Lemma dict_keys_set_present d k v :
  is_Some (dict_get d k) → dict_keys (dict_set d k v) = dict_keys d.
Proof.
  induction d as [|[k' v'] d IH]; simpl; intros [x Hx]; [done|].
  destruct (String.eqb k k') eqn:E; simpl.
  - apply String.eqb_eq in E. by subst.
  - f_equal. apply IH. eauto.
Qed.

Lemma dict_mem_set d k k' v :
  dict_mem (dict_set d k v) k' = (String.eqb k k' || dict_mem d k').
Proof.
  unfold dict_mem. destruct (String.eqb k k') eqn:E.
  - apply String.eqb_eq in E. subst. by rewrite dict_get_set_eq.
  - apply String.eqb_neq in E. by rewrite dict_get_set_ne.
Qed.

Lemma dict_mem_del d k k' :
  dict_mem (dict_del d k) k' = (negb (String.eqb k k') && dict_mem d k').
Proof.
  unfold dict_mem. destruct (String.eqb k k') eqn:E.
  - apply String.eqb_eq in E. subst. by rewrite dict_get_del_eq.
  - apply String.eqb_neq in E. by rewrite dict_get_del_ne.
Qed.
End dict_facts.

(** ** The loop over the users *)

Lemma for_users_invariant (P : bot → Prop) body keys b :
  P b →
  (∀ user_id record b, P b → P (body user_id record b)) →
  P (for_users body keys b).
Proof.
  intros Hb Hstep. revert b Hb.
  induction keys as [|k keys IH]; intros b Hb; simpl; [done|].
  apply IH. destruct (dict_get (user_data b) k); auto.
Qed.

Lemma for_users_app body keys1 keys2 b :
  for_users body (keys1 ++ keys2) b
  = for_users body keys2 (for_users body keys1 b).
Proof.
  revert b. induction keys1 as [|k keys1 IH]; intros b; simpl; [done|].
  apply IH.
Qed.

Lemma sent_app tr1 tr2 : sent (tr1 ++ tr2) = sent tr1 ++ sent tr2.
Proof. unfold sent. apply flat_map_app. Qed.

Lemma sent_emit e b :
  sent (trace (emit e b))
  = sent (trace b) ++ match e with Sent u t => [(u, t)] | _ => [] end.
Proof. simpl. rewrite sent_app. simpl. by rewrite app_nil_r. Qed.

(** ** The daily and weekly checks *)

(** No stored zone gets through [datetime.timezone]: the three bodies raise
    before they read the clock, and what they raise is not
    [discord.NotFound]. *)
Lemma morning_check_user_raises w user_id record b :
  ∃ e, morning_check_user w user_id record b = (inl e, b) ∧ e ≠ NotFound.
Proof.
  unfold morning_check_user, bind, lift.
  destruct (get_default record "config" default_config) as [e|config] eqn:E.
  - exists e. split; [done|]. destruct record; simplify_eq/=; done.
  - destruct (subscript config "timezone") as [e|zone] eqn:E'.
    + exists e. split; [done|].
      destruct config; simplify_eq/=; try done.
      destruct (dict_get _ _); simplify_eq; done.
    + by exists TypeError.
Qed.

Lemma evening_review_user_raises w user_id record b :
  ∃ e, evening_review_user w user_id record b = (inl e, b) ∧ e ≠ NotFound.
Proof.
  unfold evening_review_user, bind, lift.
  destruct (get_default record "config" default_config) as [e|config] eqn:E.
  - exists e. split; [done|]. destruct record; simplify_eq/=; done.
  - destruct (subscript config "timezone") as [e|zone] eqn:E'.
    + exists e. split; [done|].
      destruct config; simplify_eq/=; try done.
      destruct (dict_get _ _); simplify_eq; done.
    + by exists TypeError.
Qed.

Lemma weekly_review_check_user_raises w user_id record b :
  ∃ e, weekly_review_check_user w user_id record b = (inl e, b)
       ∧ e ≠ NotFound.
Proof.
  unfold weekly_review_check_user, bind, lift.
  destruct (get_default record "config" default_config) as [e|config] eqn:E.
  - exists e. split; [done|]. destruct record; simplify_eq/=; done.
  - destruct (subscript config "timezone") as [e|zone] eqn:E'.
    + exists e. split; [done|].
      destruct config; simplify_eq/=; try done.
      destruct (dict_get _ _); simplify_eq; done.
    + by exists TypeError.
Qed.

(** A body that raises something else than [NotFound] without touching the
    state leaves one printed line. *)
Lemma guarded_raises c user_id body b :
  (∃ e, body b = (inl e, b) ∧ e ≠ NotFound) →
  ∃ e, guarded c user_id body b = emit (ErrorIn c user_id e) b.
Proof.
  intros (e & Hbody & Hne). exists e. unfold guarded. rewrite Hbody.
  by destruct e.
Qed.

Lemma same_but_printed_refl b : same_but_printed b b.
Proof. by repeat split. Qed.

Lemma same_but_printed_error b0 b c user_id e :
  same_but_printed b0 b → same_but_printed b0 (emit (ErrorIn c user_id e) b).
Proof.
  intros (? & ? & ? & ? & ? & Hs). repeat split; simpl; try done.
  by rewrite sent_app, Hs; simpl; rewrite app_nil_r.
Qed.

Lemma morning_check_silent w b : same_but_printed b (morning_check w b).
Proof.
  unfold morning_check. apply for_users_invariant.
  - apply same_but_printed_refl.
  - intros k r b' H.
    destruct (guarded_raises Morning k _ b'
                (morning_check_user_raises w k r b')) as [e ->].
    by apply same_but_printed_error.
Qed.

Lemma evening_review_silent w b : same_but_printed b (evening_review w b).
Proof.
  unfold evening_review. apply for_users_invariant.
  - apply same_but_printed_refl.
  - intros k r b' H.
    destruct (guarded_raises Evening k _ b'
                (evening_review_user_raises w k r b')) as [e ->].
    by apply same_but_printed_error.
Qed.

Lemma weekly_review_check_silent w b :
  same_but_printed b (weekly_review_check w b).
Proof.
  unfold weekly_review_check. apply for_users_invariant.
  - apply same_but_printed_refl.
  - intros k r b' H.
    destruct (guarded_raises Weekly k _ b'
                (weekly_review_check_user_raises w k r b')) as [e ->].
    by apply same_but_printed_error.
Qed.

(** What the three bodies do from the reading of the clock on, for a zone
    offset they never get: they send exactly when the local time matches. *)
Lemma int_eq_int n h : int_eq n (VInt h) = (n =? h).
Proof.
  unfold int_eq. simpl. apply eq_true_iff_eq.
  rewrite Qeq_bool_iff, Z.eqb_eq. unfold Qeq. simpl. lia.
Qed.

Lemma morning_check_in_zone_fires w user_id config user_tz h uid b :
  subscript config "morning_check_hour" = inr (VInt h) →
  py_int user_id = inr uid →
  fetch_user w uid = None →
  (∀ text, send w uid text = None) →
  let user_time := datetime_now (clock w (reads b)) user_tz in
  ∃ text,
    In text morning_messages
    ∧ trace (guarded Morning user_id
               (morning_check_in_zone w user_id config user_tz) b)
      = trace b
        ++ (if (dt_hour user_time =? h) && (dt_minute user_time =? 0)
            then [Sent uid text] else []).
Proof.
  intros Hhour Hint Hfetch Hsend user_time.
  exists (nth (N.to_nat (rng w (draws b)) mod length morning_messages)
            morning_messages "").
  split.
  { apply nth_In, Nat.mod_upper_bound. simpl. lia. }
  unfold guarded, morning_check_in_zone, bind, lift, read_clock.
  rewrite Hhour, int_eq_int. fold user_time.
  destruct ((dt_hour user_time =? h) && (dt_minute user_time =? 0)).
  - rewrite Hint. unfold fetch. rewrite Hfetch. simpl.
    unfold user_send. by rewrite Hsend.
  - simpl. by rewrite app_nil_r.
Qed.

Lemma evening_review_in_zone_fires w user_id config user_tz h uid b :
  subscript config "evening_review_hour" = inr (VInt h) →
  py_int user_id = inr uid →
  fetch_user w uid = None →
  (∀ text, send w uid text = None) →
  let user_time := datetime_now (clock w (reads b)) user_tz in
  ∃ text,
    In text evening_messages
    ∧ trace (guarded Evening user_id
               (evening_review_in_zone w user_id config user_tz) b)
      = trace b
        ++ (if (dt_hour user_time =? h) && (dt_minute user_time =? 0)
            then [Sent uid text] else []).
Proof.
  intros Hhour Hint Hfetch Hsend user_time.
  exists (nth (N.to_nat (rng w (draws b)) mod length evening_messages)
            evening_messages "").
  split.
  { apply nth_In, Nat.mod_upper_bound. simpl. lia. }
  unfold guarded, evening_review_in_zone, bind, lift, read_clock.
  rewrite Hhour, int_eq_int. fold user_time.
  destruct ((dt_hour user_time =? h) && (dt_minute user_time =? 0)).
  - rewrite Hint. unfold fetch. rewrite Hfetch. simpl.
    unfold user_send. by rewrite Hsend.
  - simpl. by rewrite app_nil_r.
Qed.

Lemma weekly_review_check_in_zone_fires w user_id config user_tz
    day n h uid b :
  subscript config "weekly_review_day" = inr (VStr day) →
  dict_get day_map day = Some n →
  subscript config "weekly_review_hour" = inr (VInt h) →
  py_int user_id = inr uid →
  fetch_user w uid = None →
  (∀ text, send w uid text = None) →
  let user_time := datetime_now (clock w (reads b)) user_tz in
  trace (guarded Weekly user_id
           (weekly_review_check_in_zone w user_id config user_tz) b)
  = trace b
    ++ (if (dt_weekday user_time =? n) && (dt_hour user_time =? h)
           && (dt_minute user_time =? 0)
        then [Sent uid weekly_review_message] else []).
Proof.
  intros Hday Hn Hhour Hint Hfetch Hsend user_time.
  assert (day_map_lookup (VStr day) = inr n) as Hlookup
    by (unfold day_map_lookup; by rewrite Hn).
  unfold guarded, weekly_review_check_in_zone, bind, lift, read_clock.
  rewrite Hday, Hlookup. fold user_time.
  destruct (dt_weekday user_time =? n); simpl; [|by rewrite app_nil_r].
  rewrite Hhour, int_eq_int.
  destruct ((dt_hour user_time =? h) && (dt_minute user_time =? 0)).
  - rewrite Hint. unfold fetch. rewrite Hfetch. simpl.
    unfold user_send. by rewrite Hsend.
  - simpl. by rewrite app_nil_r.
Qed.

(** [set_timezone] tries the zone with the same call: it answers that the
    zone is invalid for every zone, and stores nothing. *)
Lemma set_timezone_rejects_every_zone w author zone b :
  dict_mem (user_data b) (py_str author) = true →
  set_timezone w author zone b = (inr InvalidTimezone, tick_clock b).
Proof. intros Hmem. unfold set_timezone. by rewrite Hmem. Qed.

Lemma dict_get_keys {V} (d : list (string * V)) k :
  In k (dict_keys d) → is_Some (dict_get d k).
Proof.
  induction d as [|[k' v] d IH]; simpl; [done|].
  intros [->|Hin].
  - rewrite String.eqb_refl. eauto.
  - destruct (String.eqb k k'); eauto.
Qed.

(** A loop whose bodies only print one line each reaches every user: the
    lines come out one per key, in the order of the keys. *)
Lemma for_users_prints_each c body keys b :
  (∀ user_id record b, ∃ e,
      body user_id record b = emit (ErrorIn c user_id e) b) →
  (∀ k, In k keys → is_Some (dict_get (user_data b) k)) →
  ∃ lines,
    trace (for_users body keys b) = trace b ++ lines
    ∧ Forall2 (λ k line, ∃ e, line = ErrorIn c k e) keys lines.
Proof.
  intros Hbody. revert b.
  induction keys as [|k keys IH]; intros b Hkeys; simpl.
  - exists []. by rewrite app_nil_r.
  - destruct (Hkeys k) as [r Hr]; [by left|]. rewrite Hr.
    destruct (Hbody k r b) as [e He]. rewrite He.
    destruct (IH (emit (ErrorIn c k e) b)) as (lines & Htr & Hall).
    { intros k' Hin. simpl. apply Hkeys. by right. }
    exists (ErrorIn c k e :: lines). split.
    + rewrite Htr. simpl. by rewrite <- app_assoc.
    + constructor; eauto.
Qed.

Lemma morning_check_prints_each w b :
  ∃ lines,
    trace (morning_check w b) = trace b ++ lines
    ∧ Forall2 (λ k line, ∃ e, line = ErrorIn Morning k e)
        (dict_keys (user_data b)) lines.
Proof.
  unfold morning_check. apply for_users_prints_each.
  - intros k r b'. apply guarded_raises, morning_check_user_raises.
  - intros k. apply dict_get_keys.
Qed.

Lemma weekly_review_check_prints_each w b :
  ∃ lines,
    trace (weekly_review_check w b) = trace b ++ lines
    ∧ Forall2 (λ k line, ∃ e, line = ErrorIn Weekly k e)
        (dict_keys (user_data b)) lines.
Proof.
  unfold weekly_review_check. apply for_users_prints_each.
  - intros k r b'. apply guarded_raises, weekly_review_check_user_raises.
  - intros k. apply dict_get_keys.
Qed.

(** C1.  The claim: the morning (evening) check fires exactly when the
    user's local time has the configured hour and minute 0; a user with zone
    UTC and morning hour 9 gets a morning message at 09:00:00Z.  The code
    passes the stored zone to [datetime.timezone], which takes a
    [timedelta]: the body raises [TypeError] for every stored zone, so
    neither check ever sends a message.  At 09:00:00Z (hour 9, minute 0 in
    UTC) a user with the default configuration, zone UTC and morning hour 9,
    gets no message and one error line is printed. *)
Theorem daily_checks_never_fire :
  (∀ w b, sent (trace (morning_check w b)) = sent (trace b)
          ∧ sent (trace (evening_review w b)) = sent (trace b))
  ∧ dt_hour (datetime_now at_0900 0) = 9
  ∧ dt_minute (datetime_now at_0900 0) = 0
  ∧ subscript default_config "timezone" = inr (VStr "UTC")
  ∧ subscript default_config "morning_check_hour" = inr (VInt 9)
  ∧ trace (morning_check (still_world at_0900 0 (λ _, None))
             (loaded [("1", record_with default_config VNone)]))
    = [ErrorIn Morning "1" TypeError]
  ∧ sent (trace (morning_check (still_world at_0901 0 (λ _, None))
                   (loaded [("1", record_with default_config VNone)])))
    = [].
Proof.
  split; [|by vm_compute].
  intros w b. split.
  - apply (morning_check_silent w b).
  - apply (evening_review_silent w b).
Qed.

(** C4.  The claim: the weekly review fires exactly when the user's local
    time has the configured weekday, the configured hour and minute 0.  The
    code raises [TypeError] at [datetime.timezone] for every stored zone, so
    the weekly check never sends a message.  On a Sunday at 18:00:00Z a user
    with zone UTC, day SUN and hour 18 gets no message and one error line is
    printed. *)
Theorem weekly_check_never_fires :
  (∀ w b, sent (trace (weekly_review_check w b)) = sent (trace b))
  ∧ dt_weekday (datetime_now sunday_1800 0) = 6
  ∧ dt_hour (datetime_now sunday_1800 0) = 18
  ∧ dt_minute (datetime_now sunday_1800 0) = 0
  ∧ dict_get day_map "SUN" = Some 6
  ∧ trace (weekly_review_check (still_world sunday_1800 0 (λ _, None))
             (loaded [("1", record_with
                              (config_with [("weekly_review_day", VStr "SUN")])
                              VNone)]))
    = [ErrorIn Weekly "1" TypeError].
Proof.
  split; [|by vm_compute].
  intros w b. apply (weekly_review_check_silent w b).
Qed.

(** C6.  The claim: a user with a malformed zone or weekday is skipped and
    printed while every other user still fires or skips as they should.  The
    loop does go on after the malformed user, but the other users do not
    fire: with three users at 09:00:00Z, the second with zone "???" and the
    other two with zone UTC and morning hour 9, the run prints one error
    line per user and sends nothing. *)
Theorem malformed_user_among_three :
  let store :=
    [ ("1", record_with default_config VNone);
      ("2", record_with (config_with [("timezone", VStr "???")]) VNone);
      ("3", record_with default_config VNone) ] in
  let after :=
    morning_check (still_world at_0900 0 (λ _, None)) (loaded store) in
  trace after
  = [ ErrorIn Morning "1" TypeError;
      ErrorIn Morning "2" TypeError;
      ErrorIn Morning "3" TypeError ]
  ∧ sent (trace after) = []
  ∧ user_data after = store.
Proof. by vm_compute. Qed.

(** ** The activity check *)

Lemma Qle_bool_minutes (m elapsed : Z) :
  Qle_bool (inject_Z m * 60) (elapsed # 1000000)
  = (m * us_per_minute <=? elapsed).
Proof.
  apply eq_true_iff_eq. rewrite Qle_bool_iff, Z.leb_le.
  unfold Qle, us_per_minute, us_per_second. simpl. lia.
Qed.



Lemma due_at_unfold fields t :
  due_at (VDict fields) t
  = match read_last_check (VDict fields) with
    | inl e => inl e
    | inr last_check =>
        activity_due
          (match dict_get fields "config" with
           | Some config => config
           | None => default_config
           end)
          last_check (datetime_now t 0)
    end.
Proof. reflexivity. Qed.

Lemma activity_due_aware config m wl off t :
  subscript config "activity_check_interval" = inr (VInt m) →
  activity_due config (Some (Datetime wl (Some off))) (datetime_now t 0)
  = inr (m * us_per_minute <=? t - (wl - off)).
Proof.
  intros Hm. unfold activity_due, dt_sub; simpl. rewrite Hm; simpl.
  rewrite Qle_bool_minutes. do 2 f_equal. lia.
Qed.



(** A due evaluation, step by step. *)
Lemma activity_check_user_due w user_id fields probability p b :
  dict_get (user_data b) user_id = Some (VDict fields) →
  due_at (VDict fields) (clock w (reads b)) = inr true →
  subscript (match dict_get fields "config" with
             | Some config => config
             | None => default_config
             end) "activity_check_probability" = inr probability →
  as_number probability = Some p →
  activity_check_user w user_id (VDict fields) b
  = let now := clock w (reads b) in
    let b1 := tick_rng (tick_clock b) in
    if Qltb (sample_of (rng w (draws b))) p then
      match py_int user_id with
      | inl e => (inl e, b1)
      | inr uid =>
          match fetch_user w uid with
          | Some e => (inl e, b1)
          | None =>
              match send w uid (picked w b) with
              | Some e => (inl e, tick_rng b1)
              | None =>
                  (inr tt,
                   store_check user_id fields now
                     (emit (Sent uid (picked w b)) (tick_rng b1)))
              end
          end
      end
    else (inr tt, store_check user_id fields now b1).
Proof.
  intros Hrecord Hdue Hprob Hp.
  rewrite due_at_unfold in Hdue.
  unfold activity_check_user, bind, lift. simpl.
  destruct (read_last_check (VDict fields)) as [e|last_check]; [done|].
  unfold read_clock. rewrite Hdue.
  unfold random_random. simpl. rewrite Hprob, Hp.
  destruct (Qltb (sample_of (rng w (draws b))) p).
  - destruct (py_int user_id) as [e|uid]; [done|].
    unfold fetch, user_send, picked. simpl.
    destruct (fetch_user w uid); [done|]. simpl.
    destruct (send w uid _); [done|].
    unfold modify, store_last_activity_check, save_data, modify. simpl.
    by rewrite Hrecord.
  - unfold ret, store_last_activity_check, save_data, modify. simpl.
    by rewrite Hrecord.
Qed.

(** An evaluation that is not due reads the clock and does nothing else. *)
Lemma activity_check_user_not_due w user_id record b :
  due_at record (clock w (reads b)) = inr false →
  activity_check_user w user_id record b = (inr tt, tick_clock b).
Proof.
  intros Hdue. unfold due_at in Hdue.
  unfold activity_check_user, bind, lift, read_clock.
  destruct (get_default record "config" default_config) as [e|config];
    [done|].
  destruct (read_last_check record) as [e|last_check]; [done|].
  by rewrite Hdue.
Qed.

(** With probability 1 and a reachable user the due evaluation sends. *)
Example activity_check_sends_when_below :
  let store :=
    [ ("1", record_with
              (config_with [("activity_check_probability", VFloat 1)])
              VNone) ] in
  let after :=
    activity_check (still_world at_0900 0 (λ _, None)) (loaded store) in
  trace after = [Sent 1 "what are you working on rn?"]
  ∧ field (user_data after) "1" "last_activity_check"
    = Some (VIso (datetime_now at_0900 0))
  ∧ file after = Doc (user_data after).
Proof. by vm_compute. Qed.


Lemma guarded_inl c user_id body b e b' :
  body b = (inl e, b') →
  guarded c user_id body b = emit (printed c user_id e) b'.
Proof. intros H. unfold guarded. rewrite H. by destruct e. Qed.

Lemma guarded_inr c user_id body b b' :
  body b = (inr tt, b') → guarded c user_id body b = b'.
Proof. intros H. unfold guarded. by rewrite H. Qed.






(** What an evaluation may do to the store: nothing, or set the last
    activity check of the record it works on. *)
Lemma activity_check_user_store w user_id record b :
  let after := snd (activity_check_user w user_id record b) in
  user_data after = user_data b
  ∨ ∃ fields v,
      dict_get (user_data b) user_id = Some (VDict fields)
      ∧ user_data after
        = dict_set (user_data b) user_id
            (VDict (dict_set fields "last_activity_check" v)).
Proof.
  unfold activity_check_user, bind, lift, read_clock, random_random,
    fetch, user_send, random_choice, store_last_activity_check, save_data,
    modify, ret, raise.
  simpl.
  repeat (case_match; simplify_eq/=); eauto.
Qed.

Lemma guarded_user_data c user_id body b :
  user_data (guarded c user_id body b) = user_data (snd (body b)).
Proof.
  unfold guarded. destruct (body b) as [[e|[]] b']; [|done]. by destruct e.
Qed.

Lemma field_set_record d user_id fields fields' name :
  dict_get d user_id = Some (VDict fields) →
  dict_get fields' name = dict_get fields name →
  field (dict_set d user_id (VDict fields')) user_id name
  = field d user_id name.
Proof.
  intros Hd Hf. unfold field. by rewrite dict_get_set_eq, Hd.
Qed.

Lemma field_set_other d user_id other v name :
  user_id ≠ other →
  field (dict_set d user_id v) other name = field d other name.
Proof. intros Hne. unfold field. by rewrite dict_get_set_ne. Qed.

(** The frame of one evaluation, for any state. *)
Lemma activity_check_evaluation_frame w user_id record b :
  let after :=
    guarded Activity user_id (activity_check_user w user_id record) b in
  dict_keys (user_data after) = dict_keys (user_data b)
  ∧ (∀ other, other ≠ user_id →
       dict_get (user_data after) other = dict_get (user_data b) other)
  ∧ (∀ user name, name ≠ "last_activity_check" →
       field (user_data after) user name = field (user_data b) user name).
Proof.
  intros after. subst after. rewrite guarded_user_data.
  destruct (activity_check_user_store w user_id record b)
    as [-> | (fields & v & Hget & ->)]; [done|].
  split; [|split].
  - apply dict_keys_set_present. eauto.
  - intros other Hne. by apply dict_get_set_ne.
  - intros user name Hne.
    destruct (decide (user_id = user)) as [<-|Hother].
    + apply (field_set_record _ _ fields); [done|].
      by apply dict_get_set_ne.
    + by apply field_set_other.
Qed.

(** C10.  An evaluation of the activity check for one user changes at most
    the [last_activity_check] entry of that user's record: the store keeps
    its keys, every other user's record is the same, and every other entry
    of the user's own record (joined date, configuration, plans, logs, last
    interaction) is the same; so a whole run of the check changes no entry
    but [last_activity_check]. *)
Theorem activity_check_frame
    (w : world) (user_id : string) (record : value) (b : bot) :
  let after :=
    guarded Activity user_id (activity_check_user w user_id record) b in
  dict_keys (user_data after) = dict_keys (user_data b)
  ∧ (∀ other, other ≠ user_id →
       dict_get (user_data after) other = dict_get (user_data b) other)
  ∧ (∀ name, name ≠ "last_activity_check" →
       field (user_data after) user_id name = field (user_data b) user_id name)
  ∧ (∀ user name, name ≠ "last_activity_check" →
       field (user_data (activity_check w b)) user name
       = field (user_data b) user name).
Proof.
  intros after.
  destruct (activity_check_evaluation_frame w user_id record b)
    as (Hkeys & Hother & Hfield).
  split; [done|]. split; [done|]. split; [by intros; apply Hfield|].
  intros user name Hne. unfold activity_check.
  apply (for_users_invariant
           (λ b', field (user_data b') user name = field (user_data b) user name));
    [done|].
  intros k r b' IH. rewrite <- IH.
  by apply (activity_check_evaluation_frame w k r b').
Qed.

(** Two users, the first due with probability 1 and reachable: the
    evaluation of the first leaves the configuration and the joined date of
    the first, and the whole record of the second, as they were. *)
Lemma activity_check_frame_holds :
  let store :=
    [ ("1", record_with
              (config_with [("activity_check_probability", VFloat 1)])
              VNone);
      ("2", record_with default_config VNone) ] in
  let w := still_world at_0900 0 (λ _, None) in
  let b := loaded store in
  let after :=
    guarded Activity "1"
      (activity_check_user w "1"
         (record_with
            (config_with [("activity_check_probability", VFloat 1)]) VNone))
      b in
  field (user_data after) "1" "config" = field (user_data b) "1" "config"
  ∧ field (user_data after) "1" "joined_date"
    = field (user_data b) "1" "joined_date"
  ∧ dict_get (user_data after) "2" = dict_get (user_data b) "2"
  ∧ field (user_data after) "1" "last_activity_check"
    = Some (VIso (datetime_now at_0900 0)).
Proof.
  intros store w b after.
  destruct (activity_check_frame w "1"
              (record_with
                 (config_with [("activity_check_probability", VFloat 1)])
                 VNone) b) as (_ & Hother & Hfield & _).
  split; [apply Hfield; discriminate|].
  split; [apply Hfield; discriminate|].
  split; [apply Hother; discriminate|].
  reflexivity.
Defined.

(** ** Opting in and out *)

Lemma py_str_eqb a u : String.eqb (py_str a) (py_str u) = (a =? u).
Proof.
  destruct (Z.eqb_spec a u) as [->|Hne].
  - apply String.eqb_refl.
  - apply String.eqb_neq. intros H. apply Hne.
    by apply (inj (pretty : Z → string)).
Qed.

Lemma dict_mem_set_present {V} (d : list (string * V)) k v k' :
  is_Some (dict_get d k) → dict_mem (dict_set d k v) k' = dict_mem d k'.
Proof.
  intros [x Hx]. rewrite dict_mem_set.
  destruct (String.eqb k k') eqn:E; [|done].
  apply String.eqb_eq in E. subst. unfold dict_mem. by rewrite Hx.
Qed.

Lemma dict_mem_keys {V} (d d' : list (string * V)) k :
  dict_keys d' = dict_keys d → dict_mem d' k = dict_mem d k.
Proof.
  revert d'. induction d as [|[k1 v1] d IH]; intros [|[k2 v2] d'] H;
    simplify_eq/=; [done|].
  unfold dict_mem in *. simpl. destruct (String.eqb k k1); [done|].
  by apply IH.
Qed.

Lemma begin_tracked w author b u :
  tracked (run_command w author Begin b) u
  = (if author =? u then true else tracked b u).
Proof.
  unfold tracked, run_command, begin_tracking, add_user, respond, bind, ret,
    read_clock, save_data, modify.
  destruct (dict_mem (user_data b) (py_str author)) eqn:Hmem; simpl.
  - destruct (Z.eqb_spec author u) as [->|]; [done|done].
  - rewrite dict_mem_set, py_str_eqb.
    by destruct (author =? u).
Qed.

Lemma stop_tracked w author b u :
  tracked (run_command w author Stop b) u
  = (if author =? u then false else tracked b u).
Proof.
  unfold tracked, run_command, stop, respond, bind, ret, save_data, modify.
  destruct (dict_mem (user_data b) (py_str author)) eqn:Hmem; simpl.
  - rewrite dict_mem_del, py_str_eqb. by destruct (author =? u).
  - destruct (Z.eqb_spec author u) as [->|]; [done|done].
Qed.

(** The setters keep the keys of the store. *)
Lemma setter_keeps_keys w author c b k :
  c ≠ Begin → c ≠ Stop →
  dict_mem (user_data (run_command w author c b)) k
  = dict_mem (user_data b) k.
Proof.
  intros HB HS.
  destruct c; try done;
    unfold run_command, set_time, set_weekly_review, set_activity_check,
      set_timezone, store_config, stored_zone, respond, bind, ret, lift,
      read_clock, save_data, modify; simpl;
    repeat (case_match; simplify_eq/=);
    rewrite ?dict_mem_set_present; eauto;
    rewrite ?dict_get_set_eq in *; simplify_eq; eauto.
Qed.

Lemma activity_check_keys w b :
  dict_keys (user_data (activity_check w b)) = dict_keys (user_data b).
Proof.
  unfold activity_check.
  apply (for_users_invariant
           (λ b', dict_keys (user_data b') = dict_keys (user_data b)));
    [done|].
  intros k r b' IH. rewrite <- IH.
  by apply (activity_check_evaluation_frame w k r b').
Qed.

Lemma tick_keeps_keys w c chk b k :
  dict_mem (user_data (step w c (Tick chk) b)) k = dict_mem (user_data b) k.
Proof.
  destruct chk; simpl.
  - by destruct (morning_check_silent w b) as [-> _].
  - by destruct (evening_review_silent w b) as [-> _].
  - apply dict_mem_keys, activity_check_keys.
  - by destruct (weekly_review_check_silent w b) as [-> _].
Qed.

Lemma on_message_keeps_keys w c author from_self is_dm content b k :
  dict_mem (user_data (snd (on_message w c author from_self is_dm content b))) k
  = dict_mem (user_data b) k.
Proof.
  unfold on_message, process_evening_review_response, process_evening_review,
    store_last_interaction, user_send, respond, bind, ret, raise, lift,
    read_clock, save_data, modify.
  repeat (case_match; simplify_eq/=);
    rewrite ?dict_mem_set_present; eauto.
Qed.

Lemma step_tracked w c i b u :
  tracked (step w c i b) u = opted_step u (tracked b u) i.
Proof.
  destruct i as [author cmd | chk | author from_self is_dm content].
  - destruct cmd; simpl;
      try (by apply begin_tracked); try (by apply stop_tracked);
      by apply setter_keeps_keys.
  - apply tick_keeps_keys.
  - apply on_message_keeps_keys.
Qed.

Lemma run_tracked w c inputs b u :
  tracked (run w c inputs b) u = fold_left (opted_step u) inputs (tracked b u).
Proof.
  revert b. induction inputs as [|i inputs IH]; intros b; [done|].
  change (run w c (i :: inputs) b) with (run w c inputs (step w c i b)).
  rewrite IH, step_tracked. done.
Qed.

(** C7.  Opting out deletes the record of the user and writes the mapping
    out; only the opt-in and opt-out commands of a user change whether the
    user has a record, so that from an empty store a record exists for an
    identifier exactly when the last of the user's opt-in and opt-out
    commands is an opt-in; and an opt-in after an opt-out gives a fresh
    record whose configuration is the default one, whatever the record held
    before. *)
Theorem opt_out_deletes_opt_in_is_fresh :
  (∀ w author b,
      let after := run_command w author Stop b in
      dict_get (user_data after) (py_str author) = None
      ∧ (dict_mem (user_data b) (py_str author) = true →
         file after = Doc (user_data after)))
  ∧ (∀ w c f inputs u,
        dict_mem (user_data (run w c inputs (start f))) (py_str u)
        = fold_left (opted_step u) inputs (dict_mem (load_data f) (py_str u)))
  ∧ (∀ w c inputs u,
        dict_mem (user_data (run w c inputs (start Missing))) (py_str u)
        = opted_in u inputs)
  ∧ (∀ w author b,
        let out := run_command w author Stop b in
        let after := run_command w author Begin out in
        dict_get (user_data after) (py_str author)
        = Some (fresh_record w (clock w (reads out)))
        ∧ field (user_data after) (py_str author) "config"
          = Some default_config).
Proof.
  split; [|split; [|split]].
  - intros w author b after. subst after.
    unfold run_command, stop, respond, bind, ret, save_data, modify.
    destruct (dict_mem (user_data b) (py_str author)) eqn:Hmem; simpl.
    + by rewrite dict_get_del_eq.
    + unfold dict_mem in Hmem. split; [|done].
      by destruct (dict_get (user_data b) (py_str author)).
  - intros w c f inputs u. apply (run_tracked w c inputs (start f) u).
  - intros w c inputs u. apply (run_tracked w c inputs (start Missing) u).
  - intros w author b out after.
    assert (dict_mem (user_data out) (py_str author) = false) as Hout.
    { pose proof (stop_tracked w author b author) as H.
      rewrite Z.eqb_refl in H. exact H. }
    subst after.
    unfold run_command, begin_tracking, add_user, respond, bind, ret,
      read_clock, save_data, modify.
    rewrite Hout. simpl. unfold field.
    by rewrite dict_get_set_eq.
Qed.

(** A user opts in, moves the morning check to 7, opts out and opts in
    again: the record is there, with the default morning hour 9. *)
Lemma opt_out_deletes_opt_in_is_fresh_holds :
  let w := still_world at_0900 0 (λ _, None) in
  let c := Collaborators (λ _, "") (λ _, None) in
  let customised :=
    run w c [Command 42 Begin; Command 42 (SetTime "morning_check" 7)]
      (start Missing) in
  let out := run_command w 42 Stop customised in
  field (user_data customised) "42" "config"
  = Some (config_with [("morning_check_hour", VInt 7)])
  ∧ file out = Doc []
  ∧ field (user_data (run_command w 42 Begin out)) "42" "config"
    = Some default_config.
Proof.
  intros w c customised out.
  destruct opt_out_deletes_opt_in_is_fresh as (Hstop & _ & _ & Hfresh).
  split; [reflexivity|]. split.
  - destruct (Hstop w 42 customised) as [_ Hfile].
    etransitivity; [exact (Hfile eq_refl) | reflexivity].
  - apply (Hfresh w 42 customised).
Defined.

(** ** The conversation router *)

(** *** Strings *)

Lemma string_app_nil (s : string) : "" +:+ s = s.
Proof. reflexivity. Qed.

Lemma string_app_cons (c : ascii) (a b : string) :
  String c a +:+ b = String c (a +:+ b).
Proof. reflexivity. Qed.

Ltac string_app := rewrite ?string_app_cons, ?string_app_nil in *.

















(** *** The memory-update directive *)







(** ** Loading and saving *)












(** ** The records the bot writes stay in shape *)

Lemma follows_set schema d k v :
  follows schema d → fits schema k v → follows schema (dict_set d k v).
Proof.
  unfold follows, fits. intros Hd Hfit.
  rewrite Forall_forall in *. intros [k' P] Hin.
  destruct (decide (k = k')) as [<-|Hne].
  - exists v. split; [apply dict_get_set_eq|].
    apply Hfit. by apply list_elem_of_In.
  - destruct (Hd (k', P) Hin) as (v' & Hget & HP).
    exists v'. split; [|done]. by rewrite dict_get_set_ne.
Qed.

Lemma follows_get schema d k P :
  follows schema d → In (k, P) schema → ∃ v, dict_get d k = Some v ∧ P v.
Proof.
  unfold follows. rewrite Forall_forall. intros Hd Hin.
  apply (Hd (k, P)). by apply list_elem_of_In.
Qed.

(** Decides what a written value must be, entry by entry of a schema. *)
Ltac fits_schema :=
  let P := fresh "P" in
  let H := fresh "H" in
  intros P H; simpl in H;
  repeat (destruct H as [H|H]; [try (by inversion H); simplify_eq|]);
  try (by destruct H).

Lemma well_kept_same b b' :
  user_data b' = user_data b → well_kept b → well_kept b'.
Proof. unfold well_kept. by intros ->. Qed.

Lemma well_kept_set b user_id fields :
  well_kept b → follows record_schema fields →
  well_kept (set_user_data (dict_set (user_data b) user_id (VDict fields)) b).
Proof.
  intros Hb Hf k r. simpl.
  destruct (decide (user_id = k)) as [<-|Hne].
  - rewrite dict_get_set_eq. intros [= <-]. eauto.
  - rewrite dict_get_set_ne by done. apply Hb.
Qed.

Lemma well_kept_del b user_id :
  well_kept b →
  well_kept (set_user_data (dict_del (user_data b) user_id) b).
Proof.
  intros Hb k r. simpl.
  destruct (decide (user_id = k)) as [<-|Hne].
  - by rewrite dict_get_del_eq.
  - rewrite dict_get_del_ne by done. apply Hb.
Qed.

Lemma keeps_same {A} (m : M A) :
  (∀ b, user_data (snd (m b)) = user_data b) → keeps m.
Proof. intros H b Hb. by apply (well_kept_same b). Qed.

Lemma keeps_bind {A B} (m : M A) (f : A → M B) :
  keeps m → (∀ a, keeps (f a)) → keeps (bind m f).
Proof.
  intros Hm Hf b Hb. unfold bind. specialize (Hm b Hb).
  destruct (m b) as [[e|a] b']; [done|]. by apply Hf.
Qed.

Lemma keeps_ret {A} (a : A) : keeps (ret a).
Proof. by apply keeps_same. Qed.

Lemma keeps_raise {A} (e : exn) : keeps (@raise A e).
Proof. by apply keeps_same. Qed.

Lemma keeps_lift {A} (r : exn + A) : keeps (lift r).
Proof. by apply keeps_same. Qed.

Lemma keeps_read_clock w : keeps (read_clock w).
Proof. by apply keeps_same. Qed.

Lemma keeps_random_random w : keeps (random_random w).
Proof. by apply keeps_same. Qed.

Lemma keeps_random_choice w seq : keeps (random_choice w seq).
Proof. apply keeps_same. intros b. by destruct seq. Qed.

Lemma keeps_fetch w uid : keeps (fetch w uid).
Proof. apply keeps_same. intros b. unfold fetch. by destruct (fetch_user w uid). Qed.

Lemma keeps_user_send w user text : keeps (user_send w user text).
Proof.
  apply keeps_same. intros b. unfold user_send.
  by destruct (send w user text).
Qed.

Lemma keeps_save_data : keeps save_data.
Proof. by apply keeps_same. Qed.

Lemma keeps_emit e : keeps (modify (emit e)).
Proof. by apply keeps_same. Qed.

Lemma keeps_stored_zone user_id : keeps (stored_zone user_id).
Proof. by apply keeps_same. Qed.

Lemma keeps_store_last_activity_check user_id t :
  keeps (store_last_activity_check user_id (VIso (datetime_now t 0))).
Proof.
  intros b Hb. unfold store_last_activity_check.
  destruct (dict_get (user_data b) user_id) as [[]|] eqn:Hget; try done.
  simpl. destruct (Hb _ _ Hget) as (fields & [= <-] & Hf).
  apply well_kept_set; [done|]. apply follows_set; [done|].
  fits_schema. right. by exists t.
Qed.

Lemma keeps_store_last_interaction user_id t :
  keeps (store_last_interaction user_id (VIso (Datetime t None))).
Proof.
  intros b Hb. unfold store_last_interaction.
  destruct (dict_get (user_data b) user_id) as [[]|] eqn:Hget; try done.
  simpl. destruct (Hb _ _ Hget) as (fields & [= <-] & Hf).
  apply well_kept_set; [done|]. apply follows_set; [done|].
  fits_schema. right. by exists t.
Qed.

Lemma keeps_store_config user_id key v :
  fits config_schema key v → keeps (store_config user_id key v).
Proof.
  intros Hfit b Hb. unfold store_config.
  destruct (dict_get (user_data b) user_id) as [[]|] eqn:Hget; try done.
  destruct (Hb _ _ Hget) as (fields & [= <-] & Hf).
  destruct (follows_get record_schema d "config"
              (λ v, ∃ config, v = VDict config ∧ follows config_schema config)
              Hf) as (x & Hx & config & -> & Hc).
  { simpl. tauto. }
  rewrite Hx. simpl.
  apply well_kept_set; [done|]. apply follows_set; [done|].
  fits_schema. eexists. split; [done|]. by apply follows_set.
Qed.

Ltac keeps_step :=
  first
    [ apply keeps_ret | apply keeps_raise | apply keeps_lift
    | apply keeps_read_clock | apply keeps_random_random
    | apply keeps_random_choice | apply keeps_fetch | apply keeps_user_send
    | apply keeps_save_data | apply keeps_emit | apply keeps_stored_zone
    | apply keeps_store_last_activity_check
    | apply keeps_store_last_interaction
    | apply keeps_bind; [|intros ?] ].

Ltac keeps_go := repeat (keeps_step || case_match).

(** Turns a goal about the state after [m b] into one about [m]. *)
Ltac keeps_of :=
  lazymatch goal with
  | H : well_kept ?b |- well_kept (snd (?m ?b)) =>
      cut (keeps m); [intros K; by apply K|]
  end.

Lemma keeps_activity_check_user w user_id record :
  keeps (activity_check_user w user_id record).
Proof. unfold activity_check_user. keeps_go. Qed.

Lemma well_kept_guarded c user_id body b :
  keeps body → well_kept b → well_kept (guarded c user_id body b).
Proof.
  intros Hbody Hb. specialize (Hbody b Hb). unfold guarded.
  destruct (body b) as [[e|[]] b']; [|done].
  destruct e; by apply (well_kept_same b').
Qed.

Lemma well_kept_tick w c chk b :
  well_kept b → well_kept (step w c (Tick chk) b).
Proof.
  intros Hb. destruct chk; simpl.
  - apply (well_kept_same b); [|done]. apply morning_check_silent.
  - apply (well_kept_same b); [|done]. apply evening_review_silent.
  - unfold activity_check. apply for_users_invariant; [done|].
    intros k r b' Hb'. apply well_kept_guarded; [|done].
    apply keeps_activity_check_user.
  - apply (well_kept_same b); [|done]. apply weekly_review_check_silent.
Qed.

Lemma default_config_follows :
  ∃ config, default_config = VDict config ∧ follows config_schema config.
Proof.
  eexists. split; [reflexivity|].
  repeat constructor; eexists; (split; [reflexivity|]);
    try (by eexists); try (by left); done.
Qed.

Lemma fresh_record_follows w t :
  ∃ fields, fresh_record w t = VDict fields ∧ follows record_schema fields.
Proof.
  eexists. split; [reflexivity|].
  repeat constructor; eexists; (split; [reflexivity|]);
    try (by eexists); try (by left); try done.
  apply default_config_follows.
Qed.

Lemma keeps_add_user w user_id : keeps (add_user w user_id).
Proof.
  intros b Hb. unfold add_user.
  destruct (dict_mem (user_data b) (py_str user_id)); [done|].
  unfold bind, read_clock, modify, save_data. simpl.
  apply (well_kept_same
           (set_user_data
              (dict_set (user_data b) (py_str user_id)
                 (fresh_record w (clock w (reads b)))) (tick_clock b)));
    [done|].
  destruct (fresh_record_follows w (clock w (reads b))) as (fields & -> & Hf).
  by apply (well_kept_set (tick_clock b)).
Qed.

Lemma keeps_begin_tracking w author : keeps (begin_tracking w author).
Proof.
  intros b Hb. unfold begin_tracking.
  destruct (dict_mem (user_data b) (py_str author)); [done|].
  pose proof (keeps_add_user w author b Hb) as Hadd.
  unfold bind, respond, ret.
  by destruct (add_user w author b) as [[e|[]] b'].
Qed.

Lemma keeps_stop author : keeps (stop author).
Proof.
  intros b Hb. unfold stop.
  destruct (dict_mem (user_data b) (py_str author)); [|done].
  unfold bind, modify, save_data, respond, ret. simpl.
  apply (well_kept_same (set_user_data (dict_del (user_data b) (py_str author)) b));
    [done|].
  by apply well_kept_del.
Qed.

Lemma keeps_set_time author check_type hour :
  keeps (set_time author check_type hour).
Proof.
  intros b Hb. unfold set_time.
  destruct (negb _); [done|].
  destruct ((hour <? 0) || (23 <? hour)) eqn:Hrange; [done|].
  destruct (negb _) eqn:Htype; [done|].
  apply negb_false_iff, orb_true_iff in Htype.
  apply orb_false_iff in Hrange as [H0 H23].
  apply Z.ltb_ge in H0, H23.
  keeps_of. unfold respond.
  destruct Htype as [->%String.eqb_eq | ->%String.eqb_eq];
    (apply keeps_bind; [|intros ?; keeps_go]);
    apply keeps_store_config; fits_schema; by exists hour.
Qed.

Lemma keeps_set_weekly_review author day hour :
  keeps (set_weekly_review author day hour).
Proof.
  intros b Hb. unfold set_weekly_review.
  destruct (negb _); [done|].
  keeps_of. unfold respond.
  apply keeps_bind;
    [apply keeps_store_config; fits_schema; by eexists|intros ?].
  apply keeps_bind;
    [apply keeps_store_config; fits_schema; by eexists|intros ?].
  keeps_go.
Qed.

Lemma keeps_set_activity_check author interval probability :
  keeps (set_activity_check author interval probability).
Proof.
  intros b Hb. unfold set_activity_check.
  destruct (negb _); [done|].
  keeps_of. unfold respond.
  apply keeps_bind;
    [apply keeps_store_config; fits_schema; by eexists|intros ?].
  apply keeps_bind;
    [apply keeps_store_config; fits_schema; by eexists|intros ?].
  keeps_go.
Qed.

Lemma keeps_set_timezone w author zone : keeps (set_timezone w author zone).
Proof.
  intros b Hb. unfold set_timezone.
  by destruct (negb _).
Qed.

Lemma keeps_set_clockify c author api_key :
  keeps (set_clockify c author api_key).
Proof.
  intros b Hb. unfold set_clockify.
  destruct (negb _); [done|].
  destruct (clockify_setup c api_key); [|done].
  keeps_of.
  apply keeps_bind;
    [apply keeps_store_config; fits_schema; right; by eexists|intros ?].
  apply keeps_bind;
    [apply keeps_store_config; fits_schema; by eexists|intros ?].
  keeps_go.
Qed.

Lemma keeps_disable_clockify author : keeps (disable_clockify author).
Proof.
  intros b Hb. unfold disable_clockify.
  destruct (negb _); [done|].
  keeps_of.
  apply keeps_bind;
    [apply keeps_store_config; fits_schema; by eexists|intros ?].
  keeps_go.
Qed.

Lemma keeps_process_evening_review_response c author content :
  keeps (process_evening_review_response c author content).
Proof.
  intros b Hb. unfold process_evening_review_response.
  destruct (dict_get (user_data b) (py_str author)); [|done].
  keeps_of. unfold process_evening_review. keeps_go.
Qed.

Lemma keeps_on_message w c author from_self is_dm content :
  keeps (on_message w c author from_self is_dm content).
Proof.
  intros b Hb. unfold on_message.
  destruct from_self; [done|]. destruct is_dm; [|done].
  destruct (dict_mem _ _); [|done].
  keeps_of.
  apply keeps_bind; [keeps_step|intros t].
  apply keeps_bind; [apply keeps_store_last_interaction|intros ?].
  apply keeps_bind;
    [apply keeps_process_evening_review_response|intros response].
  keeps_go.
Qed.

Lemma well_kept_command w author cmd b :
  well_kept b → well_kept (run_command w author cmd b).
Proof.
  intros Hb. unfold run_command.
  assert (∀ m : M reply, keeps m →
            well_kept (match m b with
                       | (inr r, b') => emit (Responded author (Some r)) b'
                       | (inl _, b') => emit (Responded author None) b'
                       end)) as Hrun.
  { intros m Hm. specialize (Hm b Hb).
    destruct (m b) as [[e|r] b']; by apply (well_kept_same b'). }
  destruct cmd; apply Hrun.
  - apply keeps_begin_tracking.
  - apply keeps_stop.
  - apply keeps_set_time.
  - apply keeps_set_weekly_review.
  - apply keeps_set_activity_check.
  - apply keeps_set_timezone.
Qed.

Lemma well_kept_any_step w c i b :
  well_kept b → well_kept (any_step w c i b).
Proof.
  intros Hb. destruct i as [[author cmd|chk|author fs dm content]|author key|author];
    simpl.
  - by apply well_kept_command.
  - by apply (well_kept_tick w c chk).
  - by apply keeps_on_message.
  - by apply keeps_set_clockify.
  - by apply keeps_disable_clockify.
Qed.

Lemma well_kept_any_run w c inputs b :
  well_kept b → well_kept (any_run w c inputs b).
Proof.
  revert b. induction inputs as [|i inputs IH]; intros b Hb; [done|].
  apply IH. by apply well_kept_any_step.
Qed.

Lemma well_kept_start_missing : well_kept (start Missing).
Proof. intros k r. simpl. done. Qed.

(** X1.  No handler writes the weekly plans or the daily logs: in every state
    reached from an empty store, by any commands, ticks and messages, each
    record has both as empty lists. *)
Theorem plans_and_logs_never_written w c inputs user_id record :
  dict_get (user_data (any_run w c inputs (start Missing))) user_id
  = Some record →
  field (user_data (any_run w c inputs (start Missing))) user_id
    "weekly_plans" = Some (VList [])
  ∧ field (user_data (any_run w c inputs (start Missing))) user_id
      "daily_logs" = Some (VList []).
Proof.
  intros Hget.
  destruct (well_kept_any_run w c inputs _ well_kept_start_missing
              _ _ Hget) as (fields & -> & Hf).
  unfold field. rewrite Hget.
  destruct (follows_get record_schema fields "weekly_plans"
              (λ v, v = VList []) Hf) as (x & Hx & ->); [simpl; tauto|].
  destruct (follows_get record_schema fields "daily_logs"
              (λ v, v = VList []) Hf) as (y & Hy & ->); [simpl; tauto|].
  done.
Qed.

Lemma plans_and_logs_never_written_holds :
  let after :=
    any_run (still_world at_0900 0 (λ _, None)) quiet_collaborators
      sample_inputs (start Missing) in
  field (user_data after) "42" "weekly_plans" = Some (VList [])
  ∧ field (user_data after) "42" "daily_logs" = Some (VList []).
Proof.
  intros after.
  eapply (plans_and_logs_never_written _ _ sample_inputs "42").
  reflexivity.
Defined.

(** X2.  The hours of the morning check and of the evening review are
    integers from 0 to 23 in every record of every state reached from an
    empty store: [set_time] is the only handler that writes them and it
    refuses any other hour. *)
Theorem daily_hours_stay_in_range w c inputs user_id record :
  dict_get (user_data (any_run w c inputs (start Missing))) user_id
  = Some record →
  ∃ config morning evening,
    subscript record "config" = inr config
    ∧ subscript config "morning_check_hour" = inr (VInt morning)
    ∧ 0 ≤ morning ≤ 23
    ∧ subscript config "evening_review_hour" = inr (VInt evening)
    ∧ 0 ≤ evening ≤ 23.
Proof.
  intros Hget.
  destruct (well_kept_any_run w c inputs _ well_kept_start_missing
              _ _ Hget) as (fields & -> & Hf).
  destruct (follows_get record_schema fields "config"
              (λ v, ∃ config, v = VDict config ∧ follows config_schema config)
              Hf) as (x & Hx & config & -> & Hc); [simpl; tauto|].
  destruct (follows_get config_schema config "morning_check_hour" is_hour Hc)
    as (m & Hm & h1 & -> & Hh1); [simpl; tauto|].
  destruct (follows_get config_schema config "evening_review_hour" is_hour Hc)
    as (e & He & h2 & -> & Hh2); [simpl; tauto|].
  exists (VDict config), h1, h2. simpl. by rewrite Hx, Hm, He.
Qed.

Lemma daily_hours_stay_in_range_holds :
  let after :=
    any_run (still_world at_0900 0 (λ _, None)) quiet_collaborators
      (sample_inputs ++ [Plain (Command 42 (SetTime "morning_check" 24))])
      (start Missing) in
  ∃ record config morning evening,
    dict_get (user_data after) "42" = Some record
    ∧ subscript record "config" = inr config
    ∧ subscript config "morning_check_hour" = inr (VInt morning)
    ∧ 0 ≤ morning ≤ 23
    ∧ subscript config "evening_review_hour" = inr (VInt evening)
    ∧ 0 ≤ evening ≤ 23.
Proof.
  intros after.
  eexists. 
  destruct (daily_hours_stay_in_range
              (still_world at_0900 0 (λ _, None)) quiet_collaborators
              (sample_inputs ++ [Plain (Command 42 (SetTime "morning_check" 24))])
              "42" _ eq_refl) as (config & morning & evening & H).
  exists config, morning, evening. split; [reflexivity|exact H].
Defined.

(** X3.  The stored zone never changes: [set_timezone] tries the zone with
    [datetime.timezone], which raises for every string, so in every state
    reached from an empty store each record still has the zone UTC of the
    default configuration. *)
Theorem zone_never_changes w c inputs user_id record :
  dict_get (user_data (any_run w c inputs (start Missing))) user_id
  = Some record →
  ∃ config,
    subscript record "config" = inr config
    ∧ subscript config "timezone" = inr (VStr "UTC").
Proof.
  intros Hget.
  destruct (well_kept_any_run w c inputs _ well_kept_start_missing
              _ _ Hget) as (fields & -> & Hf).
  destruct (follows_get record_schema fields "config"
              (λ v, ∃ config, v = VDict config ∧ follows config_schema config)
              Hf) as (x & Hx & config & -> & Hc); [simpl; tauto|].
  destruct (follows_get config_schema config "timezone"
              (λ v, v = VStr "UTC") Hc) as (z & Hz & ->); [simpl; tauto|].
  exists (VDict config). simpl. by rewrite Hx, Hz.
Qed.

Lemma zone_never_changes_holds :
  let after :=
    any_run (still_world at_0900 0 (λ _, None)) quiet_collaborators
      sample_inputs (start Missing) in
  ∃ record config,
    dict_get (user_data after) "42" = Some record
    ∧ subscript record "config" = inr config
    ∧ subscript config "timezone" = inr (VStr "UTC").
Proof.
  intros after. eexists.
  destruct (zone_never_changes
              (still_world at_0900 0 (λ _, None)) quiet_collaborators
              sample_inputs "42" _ eq_refl) as (config & H).
  exists config. split; [reflexivity|exact H].
Defined.

Lemma kept_record_due_at fields t :
  follows record_schema fields →
  ∃ config p due,
    get_default (VDict fields) "config" default_config = inr config
    ∧ subscript config "activity_check_probability" = inr (VFloat p)
    ∧ due_at (VDict fields) t = inr due.
Proof.
  intros Hf.
  destruct (follows_get record_schema fields "config"
              (λ v, ∃ config, v = VDict config ∧ follows config_schema config)
              Hf) as (x & Hx & config & -> & Hc); [simpl; tauto|].
  destruct (follows_get config_schema config "activity_check_interval"
              is_int Hc) as (i & Hi & m & ->); [simpl; tauto|].
  destruct (follows_get config_schema config "activity_check_probability"
              is_float Hc) as (q & Hq & p & ->); [simpl; tauto|].
  destruct (follows_get record_schema fields "last_activity_check"
              (λ v, v = VNone ∨ is_utc_time v) Hf)
    as (l & Hl & Hlast); [simpl; tauto|].
  exists (VDict config), p.
  rewrite due_at_unfold. unfold read_last_check. simpl. rewrite Hx, Hl, Hq.
  destruct Hlast as [-> | [t0 ->]]; simpl.
  - by exists true.
  - eexists. split; [done|]. split; [done|]. by rewrite Hi.
Qed.

(** X4.  For a record of a state reached from an empty store the activity
    check never fails on the record itself: an evaluation prints a line only
    when the dispatch fails ([int], [fetch_user] or [send] raises);
    otherwise it prints nothing and sends at most the one picked message. *)
Theorem kept_record_evaluates w c inputs w' user_id record :
  let b := any_run w c inputs (start Missing) in
  dict_get (user_data b) user_id = Some record →
  let after :=
    guarded Activity user_id (activity_check_user w' user_id record) b in
  trace after = trace b
  ∨ (∃ uid, trace after = trace b ++ [Sent uid (picked w' b)])
  ∨ (∃ e, dispatch_failure w' user_id (picked w' b) = Some e
          ∧ trace after = trace b ++ [printed Activity user_id e]).
Proof.
  intros b Hget after.
  destruct (well_kept_any_run w c inputs _ well_kept_start_missing
              _ _ Hget) as (fields & -> & Hf).
  destruct (kept_record_due_at fields (clock w' (reads b)) Hf)
    as (config & p & due & Hconfig & Hp & Hdue).
  simpl in Hconfig. simplify_eq. subst after.
  destruct due.
  - pose proof (activity_check_user_due w' user_id fields (VFloat p) p b
                  Hget Hdue Hp eq_refl) as Hrun.
    cbv zeta in Hrun. unfold dispatch_failure.
    destruct (Qltb _ p).
    + destruct (py_int user_id) as [e|uid].
      { right; right. exists e. split; [done|].
        by rewrite (guarded_inl _ _ _ _ _ _ Hrun). }
      destruct (fetch_user w' uid) as [e|].
      { right; right. exists e. split; [done|].
        by rewrite (guarded_inl _ _ _ _ _ _ Hrun). }
      destruct (send w' uid (picked w' b)) as [e|].
      { right; right. exists e. split; [done|].
        by rewrite (guarded_inl _ _ _ _ _ _ Hrun). }
      right; left. exists uid. by rewrite (guarded_inr _ _ _ _ _ Hrun).
    + left. by rewrite (guarded_inr _ _ _ _ _ Hrun).
  - left.
    by rewrite (guarded_inr _ _ _ _ _
                  (activity_check_user_not_due w' user_id _ b Hdue)).
Qed.

Lemma kept_record_evaluates_holds :
  let w := still_world at_0900 0 (λ _, None) in
  let b := any_run w quiet_collaborators sample_inputs (start Missing) in
  let after :=
    guarded Activity "42"
      (activity_check_user w "42"
         (match dict_get (user_data b) "42" with
          | Some record => record
          | None => VNone
          end)) b in
  trace after = trace b
  ∨ (∃ uid, trace after = trace b ++ [Sent uid (picked w b)])
  ∨ (∃ e, dispatch_failure w "42" (picked w b) = Some e
          ∧ trace after = trace b ++ [printed Activity "42" e]).
Proof.
  intros w b after.
  apply (kept_record_evaluates w quiet_collaborators sample_inputs w "42").
  reflexivity.
Defined.

(** ** Writing through *)

Lemma written_out_activity_check_user w user_id record b :
  written_out b → written_out (snd (activity_check_user w user_id record b)).
Proof.
  unfold written_out, activity_check_user, bind, lift, read_clock,
    random_random, fetch, user_send, random_choice,
    store_last_activity_check, save_data, modify, ret, raise.
  simpl. intros Hb.
  repeat (case_match; simplify_eq/=); eauto.
Qed.

Lemma written_out_guarded c user_id body b :
  written_out (snd (body b)) → written_out (guarded c user_id body b).
Proof.
  unfold guarded. destruct (body b) as [[e|[]] b']; [|done]. by destruct e.
Qed.

Lemma written_out_same b b' :
  user_data b' = user_data b → file b' = file b →
  written_out b → written_out b'.
Proof. unfold written_out. by intros -> ->. Qed.

Lemma written_out_tick w c chk b :
  written_out b → written_out (step w c (Tick chk) b).
Proof.
  intros Hb. destruct chk; simpl.
  - destruct (morning_check_silent w b) as (? & ? & _).
    by apply (written_out_same b).
  - destruct (evening_review_silent w b) as (? & ? & _).
    by apply (written_out_same b).
  - unfold activity_check. apply for_users_invariant; [done|].
    intros k r b' Hb'.
    by apply written_out_guarded, written_out_activity_check_user.
  - destruct (weekly_review_check_silent w b) as (? & ? & _).
    by apply (written_out_same b).
Qed.

Lemma written_out_command w author cmd b :
  written_out b → written_out (run_command w author cmd b).
Proof.
  unfold written_out. intros Hb.
  destruct cmd;
    unfold run_command, begin_tracking, add_user, stop, set_time,
      set_weekly_review, set_activity_check, set_timezone, store_config,
      stored_zone, respond, bind, ret, lift, read_clock, save_data, modify;
    simpl;
    repeat (case_match; simplify_eq/=); eauto;
    rewrite ?dict_get_set_eq in *; simplify_eq/=;
    rewrite ?dict_get_set_eq in *; simplify_eq/=; eauto.
Qed.

Lemma written_out_clockify c author api_key b :
  written_out b →
  written_out (snd (set_clockify c author api_key b))
  ∧ written_out (snd (disable_clockify author b)).
Proof.
  unfold written_out. intros Hb.
  split;
    unfold set_clockify, disable_clockify, store_config, bind, ret,
      save_data, modify; simpl;
    repeat (case_match; simplify_eq/=); eauto;
    rewrite ?dict_get_set_eq in *; simplify_eq/=;
    rewrite ?dict_get_set_eq in *; simplify_eq/=; eauto.
Qed.

Lemma written_out_on_message w c author from_self is_dm content b :
  written_out b →
  fst (on_message w c author from_self is_dm content b) = inr tt →
  written_out (snd (on_message w c author from_self is_dm content b)).
Proof.
  unfold written_out, on_message, process_evening_review_response,
    process_evening_review, store_last_interaction, user_send, respond,
    bind, ret, raise, lift, read_clock, save_data, modify.
  intros Hb.
  repeat (case_match; simplify_eq/=); eauto; done.
Qed.

(** X5.  Every command, every scheduled check and every message handled to
    its end leaves the file equal to the store when it was so before: a
    handler that changes the store saves it afterwards. *)
Theorem handlers_write_through w c b :
  written_out b →
  (∀ author cmd, written_out (run_command w author cmd b))
  ∧ (∀ chk, written_out (step w c (Tick chk) b))
  ∧ (∀ author api_key,
       written_out (snd (set_clockify c author api_key b))
       ∧ written_out (snd (disable_clockify author b)))
  ∧ (∀ author from_self is_dm content,
       fst (on_message w c author from_self is_dm content b) = inr tt →
       written_out (snd (on_message w c author from_self is_dm content b))).
Proof.
  intros Hb. split; [|split; [|split]].
  - intros. by apply written_out_command.
  - intros. by apply written_out_tick.
  - intros. by apply written_out_clockify.
  - intros. by apply written_out_on_message.
Qed.

Lemma handlers_write_through_holds :
  let w := still_world at_0900 0 (λ _, None) in
  let b := loaded [("42", record_with default_config VNone)] in
  written_out (run_command w 42 (SetTime "evening_review" 20) b)
  ∧ written_out (step w quiet_collaborators (Tick Activity) b)
  ∧ written_out (snd (on_message w quiet_collaborators 42 false true "hi" b)).
Proof.
  intros w b.
  destruct (handlers_write_through w quiet_collaborators b eq_refl)
    as (Hcmd & Htick & _ & Hmsg).
  split; [apply Hcmd|]. split; [apply Htick|].
  apply Hmsg. reflexivity.
Defined.

(** ** Messages *)

Lemma process_evening_review_response_state c author content b :
  snd (process_evening_review_response c author content b) = b.
Proof.
  unfold process_evening_review_response, process_evening_review, bind, ret,
    lift.
  repeat (case_match; simplify_eq/=); eauto.
Qed.

Lemma on_message_tracked w c author content fields b :
  dict_get (user_data b) (py_str author) = Some (VDict fields) →
  on_message w c author false true content b
  = match process_evening_review_response c author content
            (stamped w author fields b) with
    | (inl e, _) => (inl e, stamped w author fields b)
    | (inr response, _) =>
        if String.eqb response "" then
          (inr tt, set_file (Doc (user_data (stamped w author fields b)))
                     (stamped w author fields b))
        else
          match send w author (outgoing response) with
          | Some e => (inl e, stamped w author fields b)
          | None =>
              (inr tt,
               set_file (Doc (user_data (stamped w author fields b)))
                 (emit (Sent author (outgoing response))
                    (stamped w author fields b)))
          end
    end.
Proof.
  intros Hget. unfold on_message, dict_mem. rewrite Hget.
  unfold bind at 1. unfold read_clock.
  unfold bind at 1. unfold store_last_interaction. simpl. rewrite Hget.
  fold (stamped w author fields b).
  unfold bind at 1.
  pose proof (process_evening_review_response_state c author content
                (stamped w author fields b)) as Hstate.
  destruct (process_evening_review_response c author content
              (stamped w author fields b)) as [[e|response] b'];
    simpl in Hstate; subst b'; [done|].
  unfold bind, outgoing, user_send, save_data, modify, ret.
  destruct (String.eqb response ""); simpl; [done|].
  by destruct (send w author _).
Qed.



(** X7.  When sending the reply fails, the exception leaves [on_message]
    before [save_data]: the time of the message is in the store but not in
    the file, which stays as it was. *)
Theorem failed_reply_is_not_saved w c author content fields response e b :
  dict_get (user_data b) (py_str author) = Some (VDict fields) →
  fst (process_evening_review_response c author content
         (stamped w author fields b)) = inr response →
  response ≠ "" →
  send w author (outgoing response) = Some e →
  let result := on_message w c author false true content b in
  fst result = inl e
  ∧ field (user_data (snd result)) (py_str author) "last_interaction"
    = Some (VIso (datetime_now_naive (clock w (reads b)) (local_offset w)))
  ∧ file (snd result) = file b
  ∧ trace (snd result) = trace b.
Proof.
  intros Hget Hresponse Hne Hsend result. subst result.
  rewrite (on_message_tracked w c author content fields b Hget).
  destruct (process_evening_review_response c author content
              (stamped w author fields b)) as [[e'|r] b'];
    simpl in Hresponse; simplify_eq.
  apply String.eqb_neq in Hne. rewrite Hne, Hsend. simpl.
  unfold field. by rewrite !dict_get_set_eq.
Qed.

Lemma failed_reply_is_not_saved_holds :
  let w :=
    World (λ _, at_0900) 0 (λ _, 0%N) (λ _, None) (λ _ _, Some Forbidden) in
  let c := Collaborators (λ _, "kk") (λ _, None) in
  let b := loaded [("42", record_with default_config VNone)] in
  let result := on_message w c 42 false true "done for today" b in
  fst result = inl Forbidden
  ∧ field (user_data (snd result)) "42" "last_interaction"
    = Some (VIso (datetime_now_naive at_0900 0))
  ∧ file (snd result) = file b
  ∧ trace (snd result) = trace b.
Proof.
  intros w c b result.
  apply (failed_reply_is_not_saved w c 42 "done for today"
           [ ("joined_date", VIso (Datetime 0 None));
             ("weekly_plans", VList []);
             ("daily_logs", VList []);
             ("last_interaction", VNone);
             ("last_activity_check", VNone);
             ("config", default_config) ]
           "kk" Forbidden b);
    [reflexivity | reflexivity | discriminate | reflexivity].
Defined.

(** ** The markers in a reply *)








(** ** More on the activity check *)


Lemma read_last_check_iso fields d :
  dict_get fields "last_activity_check" = Some (VIso d) →
  read_last_check (VDict fields) = inr (Some d).
Proof. intros H. unfold read_last_check. simpl. by rewrite H. Qed.





(** X12.  A record without a ["config"] entry: the checks read the default
    configuration instead (the activity check is due after the default 30
    minutes), but the setters index the missing entry, so each of them ends
    in the error answer and changes neither the store nor the file. *)
Theorem record_without_config
    (w : world) (author : Z) (fields : list (string * value)) (b : bot) :
  dict_get (user_data b) (py_str author) = Some (VDict fields) →
  dict_get fields "config" = None →
  (∀ t0 t,
     dict_get fields "last_activity_check" = Some (VIso (datetime_now t0 0)) →
     due_at (VDict fields) t = inr (30 * us_per_minute <=? t - t0))
  ∧ (∀ hour, 0 ≤ hour ≤ 23 →
       run_command w author (SetTime "morning_check" hour) b
       = emit (Responded author None) b)
  ∧ (∀ day hour,
       run_command w author (SetWeeklyReview day hour) b
       = emit (Responded author None) b)
  ∧ (∀ interval probability,
       run_command w author (SetActivityCheck interval probability) b
       = emit (Responded author None) b).
Proof.
  intros Hget Hconfig.
  assert (dict_mem (user_data b) (py_str author) = true) as Hmem
    by (unfold dict_mem; by rewrite Hget).
  split; [|split; [|split]].
  - intros t0 t Hlast.
    rewrite due_at_unfold, (read_last_check_iso _ _ Hlast), Hconfig.
    unfold datetime_now at 1.
    rewrite (activity_due_aware _ 30) by done. do 2 f_equal. lia.
  - intros hour [H0 H23].
    unfold run_command, set_time. rewrite Hmem. simpl.
    assert ((hour <? 0) || (23 <? hour) = false) as ->.
    { apply orb_false_iff. split; apply Z.ltb_ge; lia. }
    unfold bind, store_config. by rewrite Hget, Hconfig.
  - intros day hour.
    unfold run_command, set_weekly_review. rewrite Hmem. simpl.
    unfold bind, store_config. by rewrite Hget, Hconfig.
  - intros interval probability.
    unfold run_command, set_activity_check. rewrite Hmem. simpl.
    unfold bind, store_config. by rewrite Hget, Hconfig.
Qed.

Lemma record_without_config_holds :
  let w := still_world at_0900 0 (λ _, None) in
  let fields :=
    [ ("joined_date", VIso (Datetime 0 None));
      ("last_activity_check", VIso (datetime_now at_0900 0)) ] in
  let b := loaded [("42", VDict fields)] in
  due_at (VDict fields) (at_0900 + 30 * us_per_minute) = inr true
  ∧ run_command w 42 (SetTime "morning_check" 7) b
    = emit (Responded 42 None) b.
Proof.
  intros w fields b.
  destruct (record_without_config w 42 fields b eq_refl eq_refl)
    as (Hdue & Htime & _).
  split.
  - rewrite (Hdue at_0900 _ eq_refl). reflexivity.
  - apply Htime. lia.
Defined.





(** ** Keys and user identifiers *)

Lemma digit_of_pretty_N_char (x : N) :
  (x < 10)%N → digit_of (pretty_N_char x) = Some (Z.of_N x).
Proof.
  intros Hx.
  assert (x = 0 ∨ x = 1 ∨ x = 2 ∨ x = 3 ∨ x = 4 ∨ x = 5 ∨ x = 6 ∨ x = 7
          ∨ x = 8 ∨ x = 9)%N as H by lia.
  repeat (destruct H as [->|H]; [done|]). by subst.
Qed.

Lemma digits_value_pretty_N_go (x : N) (s : string) :
  ∃ k : Z, 0 ≤ k ∧ ∀ acc,
    digits_value acc (pretty_N_go x s)
    = digits_value (acc * 10 ^ k + Z.of_N x) s.
Proof.
  revert s. induction (N.lt_wf_0 x) as [x _ IH]; intros s.
  assert (x = 0 ∨ 0 < x)%N as [->|Hpos] by lia.
  - exists 0. split; [done|]. intros acc. rewrite pretty_N_go_0.
    f_equal. lia.
  - destruct (IH (x `div` 10)%N (N.div_lt x 10 Hpos eq_refl)
                (String (pretty_N_char (x `mod` 10)) s)) as (k & Hk & Hgo).
    exists (k + 1). split; [lia|]. intros acc.
    rewrite pretty_N_go_step by done. rewrite Hgo. simpl.
    rewrite digit_of_pretty_N_char by (by apply N.mod_lt).
    f_equal. rewrite Z.pow_add_r by lia.
    pose proof (N.div_mod x 10) as Hdm.
    assert (Z.of_N x = 10 * Z.of_N (x `div` 10) + Z.of_N (x `mod` 10)) by lia.
    lia.
Qed.

Lemma py_int_digits (s : string) (v : Z) :
  s ≠ "" → digits_value 0 s = Some v → py_int s = inr v.
Proof.
  intros Hne Hd. destruct s as [|c r]; [done|].
  assert (digit_of c ≠ None) as Hc.
  { simpl in Hd. by destruct (digit_of c). }
  unfold py_int.
  destruct c as [[] [] [] [] [] [] [] []]; try (by destruct Hc);
    by rewrite Hd.
Qed.

Lemma py_int_pretty_pos (p : positive) :
  pretty (N.pos p) ≠ "" ∧ digits_value 0 (pretty (N.pos p)) = Some (Z.pos p).
Proof.
  unfold pretty, pretty_N. rewrite decide_False by done.
  destruct (digits_value_pretty_N_go (N.pos p) "") as (k & Hk & Hgo).
  assert (digits_value 0 (pretty_N_go (N.pos p) "") = Some (Z.pos p)) as Hd.
  { rewrite Hgo. simpl. f_equal. }
  split; [|done]. intros Hempty. rewrite Hempty in Hd. done.
Qed.

Lemma py_int_py_str (z : Z) : py_int (py_str z) = inr z.
Proof.
  unfold py_str, pretty, pretty_Z. destruct z as [|p|p].
  - done.
  - destruct (py_int_pretty_pos p) as [Hne Hd]. by apply py_int_digits.
  - destruct (py_int_pretty_pos p) as [Hne Hd].
    change (pretty p) with (pretty (N.pos p)).
    destruct (pretty (N.pos p)) as [|c r] eqn:E; [done|].
    unfold py_int. string_app. by rewrite Hd.
Qed.

(** X15.  The key of a record is [str] of the identifier and the checks go
    back through [int]: a user who has just opted in is due at once, and an
    evaluation whose sample is below the default probability sends its
    message to that same user. *)
Theorem check_reaches_who_opted_in (w w' : world) (author : Z) (b : bot) :
  dict_mem (user_data b) (py_str author) = false →
  let opted := run_command w author Begin b in
  let record := fresh_record w (clock w (reads b)) in
  Qltb (sample_of (rng w' (draws opted)))
       (5404319552844595 # 18014398509481984) = true →
  fetch_user w' author = None →
  send w' author (picked w' opted) = None →
  py_int (py_str author) = inr author
  ∧ dict_get (user_data opted) (py_str author) = Some record
  ∧ trace (guarded Activity (py_str author)
             (activity_check_user w' (py_str author) record) opted)
    = trace opted ++ [Sent author (picked w' opted)].
Proof.
  intros Hnew opted record Hbelow Hfetch Hsend.
  split; [apply py_int_py_str|].
  assert (dict_get (user_data opted) (py_str author) = Some record) as Hget.
  { subst opted.
    unfold run_command, begin_tracking, add_user, respond, bind, ret,
      read_clock, save_data, modify.
    rewrite Hnew. simpl. by rewrite dict_get_set_eq. }
  split; [done|].
  pose proof (activity_check_user_due w' (py_str author) _ _ _ opted
                Hget eq_refl eq_refl eq_refl) as Hrun.
  cbv zeta in Hrun.
  rewrite Hbelow, py_int_py_str, Hfetch, Hsend in Hrun.
  by rewrite (guarded_inr _ _ _ _ _ Hrun).
Qed.

Lemma check_reaches_who_opted_in_holds :
  let w := still_world at_0900 0 (λ _, None) in
  let opted := run_command w 42 Begin (start Missing) in
  trace (guarded Activity "42"
           (activity_check_user w "42" (fresh_record w at_0900)) opted)
  = trace opted ++ [Sent 42 "what are you working on rn?"].
Proof.
  intros w opted.
  destruct (check_reaches_who_opted_in w w 42 (start Missing))
    as (_ & _ & H); [reflexivity..|].
  exact H.
Defined.

Lemma responded_user_data author (result : (exn + reply) * bot) :
  user_data (match result with
             | (inr r, b') => emit (Responded author (Some r)) b'
             | (inl _, b') => emit (Responded author None) b'
             end) = user_data (snd result).
Proof. by destruct result as [[e|r] b']. Qed.

Lemma set_weekly_review_config author day hour fields config b :
  dict_get (user_data b) (py_str author) = Some (VDict fields) →
  dict_get fields "config" = Some (VDict config) →
  field (user_data (snd (set_weekly_review author day hour b)))
    (py_str author) "config"
  = Some (VDict (dict_set (dict_set config "weekly_review_day" (VStr day))
                   "weekly_review_hour" (VInt hour))).
Proof.
  intros Hget Hconfig.
  assert (dict_mem (user_data b) (py_str author) = true) as Hmem
    by (unfold dict_mem; by rewrite Hget).
  unfold set_weekly_review. rewrite Hmem. simpl.
  unfold bind at 1. unfold store_config at 1. rewrite Hget, Hconfig.
  unfold bind at 1. unfold store_config at 1. simpl.
  rewrite !dict_get_set_eq.
  unfold bind, save_data, modify, stored_zone, respond, ret. simpl.
  rewrite !dict_get_set_eq. simpl. rewrite !dict_get_set_eq.
  unfold field.
  destruct (subscript _ "timezone"); simpl; by rewrite !dict_get_set_eq.
Qed.

(** X16.  The weekly review and its setter.  The default day is "SUNDAY",
    which the table of days does not hold: with the default configuration
    the rest of the weekly body raises [KeyError] whatever the zone and the
    time.  After [set_weekly_review] with a day of the table the stored
    configuration makes that body send exactly at the chosen weekday and
    hour, minute 0, to the user who set it. *)
Theorem weekly_review_day_and_setter
    (w w' : world) (author : Z) (fields config : list (string * value))
    (day : string) (n hour tz : Z) (b b' : bot) :
  dict_get (user_data b) (py_str author) = Some (VDict fields) →
  dict_get fields "config" = Some (VDict config) →
  dict_get day_map day = Some n →
  fetch_user w' author = None →
  (∀ text, send w' author text = None) →
  weekly_review_check_in_zone w' (py_str author) default_config tz b'
  = (inl KeyError, tick_clock b')
  ∧ ∃ stored,
      field (user_data (run_command w author (SetWeeklyReview day hour) b))
        (py_str author) "config" = Some stored
      ∧ let user_time := datetime_now (clock w' (reads b')) tz in
        trace (guarded Weekly (py_str author)
                 (weekly_review_check_in_zone w' (py_str author) stored tz)
                 b')
        = trace b'
          ++ (if (dt_weekday user_time =? n) && (dt_hour user_time =? hour)
                 && (dt_minute user_time =? 0)
              then [Sent author weekly_review_message] else []).
Proof.
  intros Hget Hconfig Hday Hfetch Hsend. split; [done|].
  exists (VDict (dict_set (dict_set config "weekly_review_day" (VStr day))
                   "weekly_review_hour" (VInt hour))).
  split.
  - unfold run_command. rewrite responded_user_data.
    by apply (set_weekly_review_config author day hour fields config b).
  - apply (weekly_review_check_in_zone_fires w' (py_str author) _ tz day n hour
             author b'); try done.
    + simpl. rewrite dict_get_set_ne by done. by rewrite dict_get_set_eq.
    + simpl. by rewrite dict_get_set_eq.
    + apply py_int_py_str.
Qed.

Lemma weekly_review_day_and_setter_holds :
  let w := still_world sunday_1800 0 (λ _, None) in
  let b := loaded [("42", record_with default_config VNone)] in
  weekly_review_check_in_zone w "42" default_config 0 b
  = (inl KeyError, tick_clock b)
  ∧ ∃ stored,
      field (user_data (run_command w 42 (SetWeeklyReview "SUN" 18) b))
        "42" "config" = Some stored
      ∧ trace (guarded Weekly "42"
                 (weekly_review_check_in_zone w "42" stored 0) b)
        = trace b ++ [Sent 42 weekly_review_message].
Proof.
  intros w b.
  destruct (weekly_review_day_and_setter w w 42
              [ ("joined_date", VIso (Datetime 0 None));
                ("weekly_plans", VList []);
                ("daily_logs", VList []);
                ("last_interaction", VNone);
                ("last_activity_check", VNone);
                ("config", default_config) ]
              [ ("morning_check_hour", VInt 9);
                ("evening_review_hour", VInt 21);
                ("weekly_review_day", VStr "SUNDAY");
                ("weekly_review_hour", VInt 18);
                ("activity_check_interval", VInt 30);
                ("activity_check_probability",
                   VFloat (5404319552844595 # 18014398509481984));
                ("timezone", VStr "UTC");
                ("clockify_api_key", VNone);
                ("clockify_enabled", VBool false) ]
              "SUN" 6 18 0 b b eq_refl eq_refl eq_refl eq_refl
              (λ _, eq_refl)) as [Hdefault (stored & Hstored & Hfires)].
  split; [exact Hdefault|].
  exists stored. split; [exact Hstored|]. exact Hfires.
Defined.

Lemma set_time_config author check_type hour fields config b :
  dict_get (user_data b) (py_str author) = Some (VDict fields) →
  dict_get fields "config" = Some (VDict config) →
  0 ≤ hour ≤ 23 →
  check_type = "morning_check" ∨ check_type = "evening_review" →
  field (user_data (snd (set_time author check_type hour b)))
    (py_str author) "config"
  = Some (VDict (dict_set config (check_type +:+ "_hour") (VInt hour))).
Proof.
  intros Hget Hconfig [H0 H23] Htype.
  assert (dict_mem (user_data b) (py_str author) = true) as Hmem
    by (unfold dict_mem; by rewrite Hget).
  unfold set_time. rewrite Hmem. simpl.
  assert ((hour <? 0) || (23 <? hour) = false) as ->.
  { apply orb_false_iff. split; apply Z.ltb_ge; lia. }
  assert (negb (String.eqb check_type "morning_check"
                || String.eqb check_type "evening_review") = false) as ->.
  { by destruct Htype as [-> | ->]. }
  unfold bind at 1. unfold store_config at 1. rewrite Hget, Hconfig.
  unfold bind, save_data, modify, stored_zone, respond, ret. simpl.
  rewrite !dict_get_set_eq. simpl. rewrite !dict_get_set_eq.
  unfold field.
  destruct (subscript _ "timezone"); simpl; by rewrite !dict_get_set_eq.
Qed.

(** X17.  The hour setter and the daily checks.  After [set_time] with a
    valid hour the stored configuration makes the rest of the morning body
    (of the evening body, for the evening review) send exactly when the
    local time has that hour and minute 0, to the user who set it; an hour
    outside 0..23 is refused and the store stays as it was. *)
Theorem daily_hour_and_setter
    (w w' : world) (author : Z) (fields config : list (string * value))
    (hour tz : Z) (b b' : bot) :
  dict_get (user_data b) (py_str author) = Some (VDict fields) →
  dict_get fields "config" = Some (VDict config) →
  fetch_user w' author = None →
  (∀ text, send w' author text = None) →
  let user_time := datetime_now (clock w' (reads b')) tz in
  (hour < 0 ∨ 23 < hour →
   ∀ check_type,
     run_command w author (SetTime check_type hour) b
     = emit (Responded author (Some InvalidHour)) b)
  ∧ (0 ≤ hour ≤ 23 →
     (∃ stored text,
        field (user_data (run_command w author (SetTime "morning_check" hour) b))
          (py_str author) "config" = Some stored
        ∧ In text morning_messages
        ∧ trace (guarded Morning (py_str author)
                   (morning_check_in_zone w' (py_str author) stored tz) b')
          = trace b'
            ++ (if (dt_hour user_time =? hour) && (dt_minute user_time =? 0)
                then [Sent author text] else []))
     ∧ (∃ stored text,
          field (user_data
                   (run_command w author (SetTime "evening_review" hour) b))
            (py_str author) "config" = Some stored
          ∧ In text evening_messages
          ∧ trace (guarded Evening (py_str author)
                     (evening_review_in_zone w' (py_str author) stored tz) b')
            = trace b'
              ++ (if (dt_hour user_time =? hour) && (dt_minute user_time =? 0)
                  then [Sent author text] else []))).
Proof.
  intros Hget Hconfig Hfetch Hsend user_time.
  assert (dict_mem (user_data b) (py_str author) = true) as Hmem
    by (unfold dict_mem; by rewrite Hget).
  split.
  - intros Hout check_type. unfold run_command, set_time. rewrite Hmem. simpl.
    assert ((hour <? 0) || (23 <? hour) = true) as ->; [|done].
    apply orb_true_iff. destruct Hout; [left|right]; by apply Z.ltb_lt.
  - intros Hin. split.
    + destruct (morning_check_in_zone_fires w' (py_str author)
                  (VDict (dict_set config "morning_check_hour" (VInt hour)))
                  tz hour author b') as (text & Htext & Htrace); try done.
      { simpl. by rewrite dict_get_set_eq. }
      { apply py_int_py_str. }
      eexists _, text. split; [|done].
      unfold run_command. rewrite responded_user_data.
      apply (set_time_config author "morning_check" hour fields config b);
        auto.
    + destruct (evening_review_in_zone_fires w' (py_str author)
                  (VDict (dict_set config "evening_review_hour" (VInt hour)))
                  tz hour author b') as (text & Htext & Htrace); try done.
      { simpl. by rewrite dict_get_set_eq. }
      { apply py_int_py_str. }
      eexists _, text. split; [|done].
      unfold run_command. rewrite responded_user_data.
      apply (set_time_config author "evening_review" hour fields config b);
        auto.
Qed.

Lemma daily_hour_and_setter_holds :
  let w := still_world at_0900 0 (λ _, None) in
  let b := loaded [("42", record_with default_config VNone)] in
  run_command w 42 (SetTime "morning_check" 24) b
  = emit (Responded 42 (Some InvalidHour)) b
  ∧ ∃ stored text,
      field (user_data (run_command w 42 (SetTime "morning_check" 9) b))
        "42" "config" = Some stored
      ∧ In text morning_messages
      ∧ trace (guarded Morning "42"
                 (morning_check_in_zone w "42" stored 0) b)
        = trace b ++ [Sent 42 text].
Proof.
  intros w b.
  pose proof (λ hour,
    daily_hour_and_setter w w 42
      [ ("joined_date", VIso (Datetime 0 None));
        ("weekly_plans", VList []);
        ("daily_logs", VList []);
        ("last_interaction", VNone);
        ("last_activity_check", VNone);
        ("config", default_config) ]
      [ ("morning_check_hour", VInt 9);
        ("evening_review_hour", VInt 21);
        ("weekly_review_day", VStr "SUNDAY");
        ("weekly_review_hour", VInt 18);
        ("activity_check_interval", VInt 30);
        ("activity_check_probability",
           VFloat (5404319552844595 # 18014398509481984));
        ("timezone", VStr "UTC");
        ("clockify_api_key", VNone);
        ("clockify_enabled", VBool false) ]
      hour 0 b b eq_refl eq_refl eq_refl (λ _, eq_refl)) as H.
  split.
  - destruct (H 24) as [Hout _]. apply Hout. right. lia.
  - destruct (H 9) as [_ Hin].
    destruct Hin as [(stored & text & Hs & Ht & Htr) _]; [lia|].
    exists stored, text. split; [exact Hs|]. split; [exact Ht|exact Htr].
Defined.

(** ** The memory of the language-model handler *)

Lemma memory_delete_lookup (keys : list string) (m : gmap string string)
    (out : string) (k : string) :
  fst (fold_left
         (λ '(m, out) key,
            match m !! key with
            | Some _ =>
                (delete key m,
                 out +:+ "Deleted memory for " +:+ quoted key +:+ ". ")
            | None => (m, out)
            end) keys (m, out)) !! k
  = if existsb (String.eqb k) keys then None else m !! k.
Proof.
  revert m out. induction keys as [|key keys IH]; intros m out; [done|].
  simpl. destruct (String.eqb k key) eqn:E; simpl.
  - apply String.eqb_eq in E. subst key.
    destruct (m !! k) eqn:Hk; rewrite IH.
    + rewrite lookup_delete_eq. by destruct (existsb _ keys).
    + rewrite Hk. by destruct (existsb _ keys).
  - apply String.eqb_neq in E.
    destruct (m !! key) eqn:Hk; rewrite IH; [|done].
    by rewrite lookup_delete_ne.
Qed.

Lemma memory_store_lookup (say : string → string → string)
    (items : list (string * string)) (m : gmap string string)
    (out : string) (k : string) :
  fst (fold_left
         (λ '(m, out) '(key, v), (<[key := v]> m, out +:+ say key v))
         items (m, out)) !! k
  = match last_value items k with
    | Some v => Some v
    | None => m !! k
    end.
Proof.
  revert m out. induction items as [|[key v] items IH]; intros m out; [done|].
  simpl. rewrite IH. destruct (last_value items k); [done|].
  destruct (String.eqb k key) eqn:E.
  - apply String.eqb_eq in E. subst. by rewrite lookup_insert_eq.
  - apply String.eqb_neq in E. by rewrite lookup_insert_ne.
Qed.

Lemma process_memory_lookup (mi : memory_instructions)
    (mem : gmap string string) (k : string) :
  fst (_process_memory_instructions mi mem) !! k
  = match last_value (entries (mi_add mi)) k with
    | Some v => Some v
    | None =>
        match last_value (entries (mi_update mi)) k with
        | Some v => Some v
        | None =>
            if existsb (String.eqb k) (entries (mi_delete mi)) then None
            else mem !! k
        end
    end.
Proof.
  unfold _process_memory_instructions.
  destruct mi as [deleted updated added]. simpl.
  set (after_delete :=
         match deleted with
         | Some keys => fold_left _ keys (mem, "")
         | None => (mem, "")
         end).
  assert (after_delete.1 !! k
          = if existsb (String.eqb k) (entries deleted) then None
            else mem !! k) as Hdel.
  { subst after_delete. destruct deleted as [keys|]; [|done].
    apply memory_delete_lookup. }
  set (after_update :=
         match updated with
         | Some items => fold_left _ items after_delete
         | None => after_delete
         end).
  assert (after_update.1 !! k
          = match last_value (entries updated) k with
            | Some v => Some v
            | None => after_delete.1 !! k
            end) as Hupd.
  { subst after_update. destruct updated as [items|]; [|done].
    destruct after_delete as [m0 o0].
    apply (memory_store_lookup
             (λ key v, "Updated memory for " +:+ quoted key +:+ " to "
                         +:+ quoted v +:+ ". ")). }
  destruct added as [items|]; simpl.
  - destruct after_update as [m1 o1].
    rewrite (memory_store_lookup
               (λ key v, "Added memory for " +:+ quoted key +:+ ": "
                           +:+ quoted v +:+ ". ")).
    destruct (last_value items k); [done|].
    simpl in Hupd. by rewrite Hupd, Hdel.
  - by rewrite Hupd, Hdel.
Qed.

(** X18.  What the memory holds after a set of instructions: a key keeps the
    last value added for it, else the last value given under update, else
    nothing when it was listed under delete, else what it held before.  So
    the deletions come first and an update of a key that is not stored
    stores it. *)
Theorem memory_after_instructions (mi : memory_instructions)
    (mem : gmap string string) (k : string) :
  fst (_process_memory_instructions mi mem) !! k
  = match last_value (entries (mi_add mi)) k with
    | Some v => Some v
    | None =>
        match last_value (entries (mi_update mi)) k with
        | Some v => Some v
        | None =>
            if existsb (String.eqb k) (entries (mi_delete mi)) then None
            else mem !! k
        end
    end.
Proof. apply process_memory_lookup. Qed.

(** X19.  Carrying out the same instructions a second time leaves the memory
    as the first time left it. *)
Theorem memory_instructions_idempotent (mi : memory_instructions)
    (mem : gmap string string) :
  fst (_process_memory_instructions mi
         (fst (_process_memory_instructions mi mem)))
  = fst (_process_memory_instructions mi mem).
Proof.
  apply map_eq. intros k. rewrite !process_memory_lookup.
  destruct (last_value (entries (mi_add mi)) k); [done|].
  destruct (last_value (entries (mi_update mi)) k); [done|].
  by destruct (existsb (String.eqb k) (entries (mi_delete mi))).
Qed.

(** ** Time-tracking reports *)

Lemma add_to_project_get projects e p :
  dict_get (add_to_project projects e) p
  = if String.eqb p (entry_project e)
    then Some (match dict_get projects p with
               | Some (t, l) => (t + entry_duration e, l ++ [activity_of e])
               | None => (0 + entry_duration e, [] ++ [activity_of e])
               end)
    else dict_get projects p.
Proof.
  unfold add_to_project.
  destruct (String.eqb p (entry_project e)) eqn:E.
  - apply String.eqb_eq in E as ->.
    destruct (dict_get projects (entry_project e)) as [[t l]|];
      by rewrite dict_get_set_eq.
  - apply String.eqb_neq in E.
    destruct (dict_get projects (entry_project e)) as [[t l]|];
      by rewrite dict_get_set_ne.
Qed.

Lemma projects_get es : ∀ projects p,
  dict_get (fold_left add_to_project es projects) p
  = match of_project p es with
    | [] => dict_get projects p
    | l =>
        let '(t0, l0) := default (0, []) (dict_get projects p) in
        Some (t0 + sum_durations l, l0 ++ map activity_of l)
    end.
Proof.
  induction es as [|e es IH]; intros projects p; [done|].
  simpl fold_left. rewrite IH. unfold of_project. rewrite filter_cons.
  fold (of_project p es). rewrite add_to_project_get.
  destruct (String.eqb p (entry_project e)) eqn:E.
  - rewrite decide_True by done. simpl.
    destruct (dict_get projects p) as [[t l]|]; simpl;
      destruct (of_project p es) as [|e' l']; simpl;
      f_equal; f_equal; rewrite <- ?app_assoc; try done; lia.
  - rewrite decide_False by done. done.
Qed.

Lemma daily_totals_fold es : ∀ t projects,
  fold_left
    (fun '(total_duration, projects) e =>
       (total_duration + entry_duration e, add_to_project projects e))
    es (t, projects)
  = (t + sum_durations es, fold_left add_to_project es projects).
Proof.
  induction es as [|e es IH]; intros t projects; simpl.
  - f_equal. lia.
  - rewrite IH. f_equal. lia.
Qed.

Lemma daily_totals_eq es :
  daily_totals es = (sum_durations es, fold_left add_to_project es []).
Proof. unfold daily_totals. by rewrite daily_totals_fold. Qed.

(** X20.  The loop of the daily report groups by project: a project with no
    entry is not in the report, and any other project carries the sum of the
    durations of its entries and their activities in the order of the
    entries; the total of the report is the sum over all the entries. *)
Theorem daily_report_groups (es : list time_entry) (p : string) :
  dict_get (snd (daily_totals es)) p
  = match of_project p es with
    | [] => None
    | l => Some (sum_durations l, map activity_of l)
    end
  ∧ fst (daily_totals es) = sum_durations es.
Proof.
  rewrite daily_totals_eq. split; [|done]. simpl. rewrite projects_get.
  by destruct (of_project p es).
Qed.

Lemma dict_keys_set {V} (d : list (string * V)) k v :
  dict_keys (dict_set d k v)
  = if dict_mem d k then dict_keys d else dict_keys d ++ [k].
Proof.
  unfold dict_mem, dict_keys. induction d as [|[k' v'] d IH]; simpl; [done|].
  destruct (String.eqb k k') eqn:E; simpl.
  - apply String.eqb_eq in E. by subst.
  - rewrite IH. by destruct (dict_get d k).
Qed.

Lemma dict_mem_elem_of {V} (d : list (string * V)) k :
  dict_mem d k = true ↔ k ∈ dict_keys d.
Proof.
  unfold dict_mem, dict_keys. induction d as [|[k' v'] d IH]; simpl.
  - split; [done|]. by intros ?%elem_of_nil.
  - rewrite elem_of_cons. destruct (String.eqb k k') eqn:E.
    + apply String.eqb_eq in E. by split; [left|].
    + apply String.eqb_neq in E. rewrite IH.
      split; [by right|]. by intros [?|?].
Qed.

Lemma first_seen_snoc (l : list string) (p : string) :
  reverse (remove_dups (reverse (l ++ [p])))
  = if bool_decide (p ∈ l) then reverse (remove_dups (reverse l))
    else reverse (remove_dups (reverse l)) ++ [p].
Proof.
  rewrite reverse_app. simpl.
  destruct (decide_rel elem_of p (reverse l)) as [Hin|Hout].
  - rewrite bool_decide_true; [done|]. by apply elem_of_reverse.
  - rewrite bool_decide_false; [|by rewrite <- elem_of_reverse].
    by rewrite reverse_cons.
Qed.

Lemma add_to_project_keys projects e :
  dict_keys (add_to_project projects e)
  = if dict_mem projects (entry_project e) then dict_keys projects
    else dict_keys projects ++ [entry_project e].
Proof.
  unfold add_to_project.
  destruct (dict_get projects (entry_project e)) as [[t l]|];
    apply dict_keys_set.
Qed.

(** X21.  Every project is listed once in the daily report, in the order in
    which the projects first appear among the entries. *)
Theorem daily_report_lists_each_project_once (es : list time_entry) :
  dict_keys (snd (daily_totals es))
  = reverse (remove_dups (reverse (map entry_project es)))
  ∧ NoDup (dict_keys (snd (daily_totals es))).
Proof.
  assert (dict_keys (snd (daily_totals es))
          = reverse (remove_dups (reverse (map entry_project es)))) as ->.
  { rewrite daily_totals_eq. simpl.
    induction es as [|e es IH] using rev_ind; [done|].
    rewrite fold_left_app, map_app. simpl.
    rewrite first_seen_snoc, add_to_project_keys, <- IH.
    destruct (dict_mem (fold_left add_to_project es []) (entry_project e))
      eqn:E.
    - rewrite bool_decide_true; [done|].
      apply dict_mem_elem_of in E. by rewrite IH, elem_of_reverse,
        elem_of_remove_dups, elem_of_reverse in E.
    - rewrite bool_decide_false; [done|]. intros Hin.
      assert (dict_mem (fold_left add_to_project es []) (entry_project e)
              = true); [|congruence].
      apply dict_mem_elem_of. by rewrite IH, elem_of_reverse,
        elem_of_remove_dups, elem_of_reverse. }
  split; [done|]. rewrite reverse_Permutation. apply NoDup_remove_dups.
Qed.

Lemma sum_totals_set {G} (d : list (string * (Z * G))) k t g :
  sum_totals (dict_set d k (t, g))
  = sum_totals d
    - match dict_get d k with Some old => fst old | None => 0 end + t.
Proof.
  unfold sum_totals. induction d as [|[k' [t' g']] d IH]; simpl; [lia|].
  destruct (String.eqb k k') eqn:E; simpl; [lia|].
  rewrite IH. lia.
Qed.

Lemma sum_totals_add_to_project projects e :
  sum_totals (add_to_project projects e)
  = sum_totals projects + entry_duration e.
Proof.
  unfold add_to_project.
  destruct (dict_get projects (entry_project e)) as [[t l]|] eqn:E;
    cbv beta iota; unfold project_group in *;
    rewrite sum_totals_set, E; simpl; lia.
Qed.

(** X22.  The totals of the projects of a daily report add up to the total
    of the report. *)
Theorem daily_report_totals_add_up (es : list time_entry) :
  sum_totals (snd (daily_totals es)) = fst (daily_totals es).
Proof.
  rewrite daily_totals_eq. simpl.
  induction es as [|e es IH] using rev_ind; [done|].
  rewrite fold_left_app. simpl. rewrite sum_totals_add_to_project, IH.
  unfold sum_durations. rewrite foldr_app. simpl.
  generalize (entry_duration e). clear. intros z.
  induction es as [|e es IH]; simpl; lia.
Qed.

Lemma add_to_day_get days e d :
  dict_get (add_to_day days e) d
  = if String.eqb d (entry_day e)
    then Some (match dict_get days d with
               | Some (t, ps) => (t + entry_duration e, add_to_project ps e)
               | None => (0 + entry_duration e, add_to_project [] e)
               end)
    else dict_get days d.
Proof.
  unfold add_to_day.
  destruct (String.eqb d (entry_day e)) eqn:E.
  - apply String.eqb_eq in E as ->.
    destruct (dict_get days (entry_day e)) as [[t l]|];
      by rewrite dict_get_set_eq.
  - apply String.eqb_neq in E.
    destruct (dict_get days (entry_day e)) as [[t l]|];
      by rewrite dict_get_set_ne.
Qed.

Lemma days_get es : ∀ days d,
  dict_get (fold_left add_to_day es days) d
  = match of_day d es with
    | [] => dict_get days d
    | l =>
        let '(t0, ps0) := default (0, []) (dict_get days d) in
        Some (t0 + sum_durations l, fold_left add_to_project l ps0)
    end.
Proof.
  induction es as [|e es IH]; intros days d; [done|].
  simpl fold_left. rewrite IH. unfold of_day. rewrite filter_cons.
  fold (of_day d es). rewrite add_to_day_get.
  destruct (String.eqb d (entry_day e)) eqn:E.
  - rewrite decide_True by done. simpl.
    destruct (dict_get days d) as [[t ps]|]; simpl;
      destruct (of_day d es) as [|e' l']; simpl;
      f_equal; f_equal; lia.
  - rewrite decide_False by done. done.
Qed.

Lemma weekly_totals_fold es : ∀ t days,
  fold_left
    (fun '(total_duration, days) e =>
       (total_duration + entry_duration e, add_to_day days e))
    es (t, days)
  = (t + sum_durations es, fold_left add_to_day es days).
Proof.
  induction es as [|e es IH]; intros t days; simpl.
  - f_equal. lia.
  - rewrite IH. f_equal. lia.
Qed.

Lemma weekly_totals_eq es :
  weekly_totals es = (sum_durations es, fold_left add_to_day es []).
Proof. unfold weekly_totals. by rewrite weekly_totals_fold. Qed.

Lemma sum_totals_add_to_day days e :
  sum_totals (add_to_day days e) = sum_totals days + entry_duration e.
Proof.
  unfold add_to_day.
  destruct (dict_get days (entry_day e)) as [[t l]|] eqn:E;
    cbv beta iota; unfold day_group in *;
    rewrite sum_totals_set, E; simpl; lia.
Qed.

Lemma sum_durations_snoc es e :
  sum_durations (es ++ [e]) = sum_durations es + entry_duration e.
Proof.
  unfold sum_durations. induction es as [|e' es IH]; simpl; lia.
Qed.

(** X23.  The weekly report groups by the day of the week on which an entry
    starts, and what it holds for a day is what the loop of the daily report
    computes from the entries of that day alone: the day's total and its
    projects.  A day without entries is not in the report; the total of the
    report is the sum over all entries, and the totals of the days add up to
    it. *)
Theorem weekly_report_day_is_daily_report (es : list time_entry)
    (d : string) :
  dict_get (snd (weekly_totals es)) d
  = match of_day d es with
    | [] => None
    | l => Some (daily_totals l)
    end
  ∧ fst (weekly_totals es) = sum_durations es
  ∧ sum_totals (snd (weekly_totals es)) = fst (weekly_totals es).
Proof.
  rewrite weekly_totals_eq. simpl. split; [|split; [done|]].
  - rewrite days_get. destruct (of_day d es) as [|e l] eqn:E; [done|].
    simpl dict_get. cbv beta iota. simpl default. cbv beta iota.
    by rewrite daily_totals_eq.
  - induction es as [|e es IH] using rev_ind; [done|].
    rewrite fold_left_app. simpl.
    by rewrite sum_totals_add_to_day, IH, sum_durations_snoc.
Qed.

(** ** Durations *)




Lemma py_str_inj (x y : Z) : py_str x = py_str y → x = y.
Proof.
  intros H. pose proof (py_int_py_str x) as Hx. rewrite H in Hx.
  rewrite py_int_py_str in Hx. congruence.
Qed.



(** ** Who the bot writes to *)

Lemma for_users_invariant_keys (P : bot → Prop) body keys b :
  P b →
  (∀ user_id record b, In user_id keys → P b → P (body user_id record b)) →
  P (for_users body keys b).
Proof.
  intros Hb Hstep. revert b Hb.
  induction keys as [|k keys IH]; intros b Hb; simpl; [done|].
  apply IH.
  - intros user_id record b' Hin. apply Hstep. by right.
  - destruct (dict_get (user_data b) k); [|done]. apply Hstep; [by left|done].
Qed.

Lemma guarded_activity_recipient w user_id record b u text :
  In (u, text)
     (sent (trace (guarded Activity user_id
                     (activity_check_user w user_id record) b))) →
  In (u, text) (sent (trace b)) ∨ py_int user_id = inr u.
Proof.
  unfold guarded, activity_check_user, bind, lift, read_clock, random_random,
    fetch, user_send, random_choice, store_last_activity_check, save_data,
    modify, ret, raise.
  simpl.
  repeat (case_match; simplify_eq/=);
    rewrite ?sent_app, ?in_app_iff; simpl; intros Hsent;
    repeat (destruct Hsent as [Hsent|Hsent]; simplify_eq/=);
    simplify_eq/=; auto; done.
Qed.

Lemma dict_mem_in_keys {V} (d : list (string * V)) k :
  In k (dict_keys d) → dict_mem d k = true.
Proof.
  intros [v Hv]%dict_get_keys. unfold dict_mem. by rewrite Hv.
Qed.

Lemma activity_check_recipient w b u text :
  keyed_by_str b →
  In (u, text) (sent (trace (activity_check w b))) →
  In (u, text) (sent (trace b)) ∨ tracked b u = true.
Proof.
  intros Hkeys. unfold activity_check.
  apply (for_users_invariant_keys
           (λ b', In (u, text) (sent (trace b')) →
                  In (u, text) (sent (trace b)) ∨ tracked b u = true));
    [by left|].
  intros k r b' Hin IH [Hold|Hnew]%guarded_activity_recipient; [auto|].
  right. apply dict_mem_in_keys in Hin.
  destruct (Hkeys k Hin) as [a ->].
  rewrite py_int_py_str in Hnew. by simplify_eq.
Qed.

Lemma command_sends_nothing w author cmd b :
  sent (trace (run_command w author cmd b)) = sent (trace b).
Proof.
  destruct cmd;
    unfold run_command, begin_tracking, add_user, stop, set_time,
      set_weekly_review, set_activity_check, set_timezone, store_config,
      stored_zone, respond, bind, ret, lift, raise, read_clock, save_data,
      modify; simpl;
    repeat (case_match; simplify_eq/=);
    rewrite ?sent_app; simpl; by rewrite ?app_nil_r.
Qed.

Lemma clockify_sends_nothing c author api_key b :
  trace (snd (set_clockify c author api_key b)) = trace b
  ∧ trace (snd (disable_clockify author b)) = trace b
  ∧ (∀ k, dict_mem (user_data (snd (set_clockify c author api_key b))) k
          = dict_mem (user_data b) k)
  ∧ (∀ k, dict_mem (user_data (snd (disable_clockify author b))) k
          = dict_mem (user_data b) k).
Proof.
  unfold set_clockify, disable_clockify, store_config, bind, ret, save_data,
    modify.
  repeat split; intros;
    repeat (case_match; simplify_eq/=);
    rewrite ?dict_mem_set_present; eauto;
    rewrite ?dict_get_set_eq in *; simplify_eq; eauto.
Qed.

Lemma on_message_recipient w c author from_self is_dm content b u text :
  In (u, text)
     (sent (trace (snd (on_message w c author from_self is_dm content b)))) →
  In (u, text) (sent (trace b)) ∨ tracked b u = true.
Proof.
  unfold tracked, on_message, process_evening_review_response,
    process_evening_review, store_last_interaction, user_send, respond, bind,
    ret, raise, lift, read_clock, save_data, modify.
  repeat (case_match; simplify_eq/=);
    rewrite ?sent_app, ?in_app_iff; simpl; intros Hsent;
    repeat (destruct Hsent as [Hsent|Hsent]; simplify_eq/=);
    simplify_eq/=; auto; done.
Qed.

Lemma any_step_recipient w c i b u text :
  keyed_by_str b →
  In (u, text) (sent (trace (any_step w c i b))) →
  In (u, text) (sent (trace b)) ∨ tracked b u = true.
Proof.
  intros Hkeys.
  destruct i as [[author cmd | chk | author from_self is_dm content]
                | author api_key | author]; simpl.
  - rewrite command_sends_nothing. auto.
  - destruct chk.
    + destruct (morning_check_silent w b) as (_ & _ & _ & _ & _ & ->). auto.
    + destruct (evening_review_silent w b) as (_ & _ & _ & _ & _ & ->). auto.
    + by apply activity_check_recipient.
    + destruct (weekly_review_check_silent w b)
        as (_ & _ & _ & _ & _ & ->). auto.
  - apply on_message_recipient.
  - destruct (clockify_sends_nothing c author api_key b) as (-> & _). auto.
  - destruct (clockify_sends_nothing c author "" b) as (_ & -> & _). auto.
Qed.

Lemma begin_keys w author b k :
  dict_mem (user_data (run_command w author Begin b)) k = true →
  k = py_str author ∨ dict_mem (user_data b) k = true.
Proof.
  unfold run_command, begin_tracking, add_user, respond, bind, ret,
    read_clock, save_data, modify.
  destruct (dict_mem (user_data b) (py_str author)) eqn:Hmem; simpl;
    [auto|].
  rewrite dict_mem_set. intros [H|H]%orb_true_iff; [|auto].
  left. apply String.eqb_eq in H. done.
Qed.

Lemma stop_keys w author b k :
  dict_mem (user_data (run_command w author Stop b)) k = true →
  dict_mem (user_data b) k = true.
Proof.
  unfold run_command, stop, respond, bind, ret, save_data, modify.
  destruct (dict_mem (user_data b) (py_str author)) eqn:Hmem; simpl;
    [|done].
  rewrite dict_mem_del. by intros [_ H]%andb_true_iff.
Qed.

Lemma any_step_keys w c i b k :
  dict_mem (user_data (any_step w c i b)) k = true →
  dict_mem (user_data b) k = true
  ∨ ∃ author, i = Plain (Command author Begin) ∧ k = py_str author.
Proof.
  destruct i as [[author cmd | chk | author from_self is_dm content]
                | author api_key | author]; cbn [any_step].
  - cbn [step]. destruct cmd;
      try (rewrite setter_keeps_keys by done; auto).
    + intros [->|H]%begin_keys; eauto.
    + intros H%stop_keys; auto.
  - rewrite tick_keeps_keys. auto.
  - cbn [step]. rewrite on_message_keeps_keys. auto.
  - destruct (clockify_sends_nothing c author api_key b) as (_ & _ & -> & _).
    auto.
  - destruct (clockify_sends_nothing c author "" b) as (_ & _ & _ & ->).
    auto.
Qed.

Lemma any_run_snoc w c inputs i b :
  any_run w c (inputs ++ [i]) b = any_step w c i (any_run w c inputs b).
Proof. unfold any_run. by rewrite fold_left_app. Qed.

Lemma any_run_opted_in w c inputs :
  let b := any_run w c inputs (start Missing) in
  (∀ k, dict_mem (user_data b) k = true →
        ∃ a, k = py_str a ∧ In (Plain (Command a Begin)) inputs)
  ∧ (∀ u text, In (u, text) (sent (trace b)) →
               In (Plain (Command u Begin)) inputs).
Proof.
  induction inputs as [|i inputs [IHkeys IHsent]] using rev_ind;
    [by split|].
  simpl. rewrite any_run_snoc.
  assert (keyed_by_str (any_run w c inputs (start Missing))) as Hkeyed.
  { intros k Hk. destruct (IHkeys k Hk) as (a & -> & _). by exists a. }
  split.
  - intros k [Hk|(a & -> & ->)]%any_step_keys.
    + destruct (IHkeys k Hk) as (a & -> & Hin). exists a.
      split; [done|]. apply in_or_app. by left.
    + exists a. split; [done|]. apply in_or_app. right. by left.
  - intros u text [Hold|Hnew]%any_step_recipient; [| |done].
    + apply in_or_app. left. by eapply IHsent.
    + destruct (IHkeys _ Hnew) as (a & Ha & Hin).
      apply py_str_inj in Ha as <-. apply in_or_app. by left.
Qed.

(** X25.  From an empty store the bot writes only to users who opted in: a
    direct message to a user, from the activity check or in answer to a
    message, is sent only in a run in which that user ran [/begin]. *)
Theorem no_message_without_opt_in (w : world) (c : collaborators)
    (inputs : list any_input) (u : Z) (text : string) :
  In (u, text) (sent (trace (any_run w c inputs (start Missing)))) →
  In (Plain (Command u Begin)) inputs.
Proof. intros H. by eapply any_run_opted_in. Qed.

Lemma no_message_without_opt_in_holds :
  let w := still_world at_0900 0 (λ _, None) in
  let inputs := [Plain (Command 42 Begin); Plain (Tick Activity)] in
  In (42, "what are you working on rn?")
     (sent (trace (any_run w quiet_collaborators inputs (start Missing))))
  ∧ In (Plain (Command 42 Begin)) inputs.
Proof.
  intros w inputs.
  assert (In (42, "what are you working on rn?")
            (sent (trace (any_run w quiet_collaborators inputs
                            (start Missing))))) as Hsent.
  { vm_compute. left. reflexivity. }
  split; [exact Hsent|].
  exact (no_message_without_opt_in w quiet_collaborators inputs 42 _ Hsent).
Defined.
